(** * AstroMCAD-ELAsTiCC: source records and the dataset wrapper

    A shallow embedding of [LSST_Source.py] and [dataloader.py].

    - A polars data frame is a list of named columns, a column a list of
      cells.  A cell of a list-typed column holds a whole array.
    - A numpy array is a list of elements of one dtype; float64 values are
      the binary64 numbers of IEEE 754 with their rounding, infinities
      and NaN, int64 values are integers with the wrap-around written
      out, strings are strings.
    - A Python object with dynamic attributes ([setattr]/[getattr]) is a
      finite map from attribute names to values.
    - A Python exception is a value of [exn], carried by [result].
    - The taxonomy mapper [get_astrophysical_class] of [taxonomy.py] is a
      parameter of the development: a pure function on class labels. *)

From Stdlib Require Import ZArith SpecFloat.
From stdpp Require Import gmap strings list.

Local Open Scope string_scope.
Local Open Scope list_scope.
Local Open Scope Z_scope.
Local Open Scope nat_scope.

(** ** Exceptions and fallible computations *)

Inductive exn :=
| IndexError
| ColumnNotFoundError
| AttributeError
| KeyError
| TypeError
| ValueError
| AssertionError (msg : string).

Inductive result (A : Type) :=
| Ok (a : A)
| Raise (e : exn).
Arguments Ok {A} a.
Arguments Raise {A} e.

Global Instance exn_eq_dec : EqDecision exn.
Proof. solve_decision. Defined.

Global Instance result_eq_dec `{EqDecision A} : EqDecision (result A).
Proof. solve_decision. Defined.

Global Instance result_ret : MRet result := @Ok.
Global Instance result_bind : MBind result := λ A B f m,
  match m with
  | Ok a => f a
  | Raise e => Raise e
  end.

Definition is_Ok {A} (m : result A) : bool :=
  match m with Ok _ => true | Raise _ => false end.

(** A [for] loop that threads an accumulator and stops at the first
    exception. *)
Fixpoint foldM {A B} (f : B → A → result B) (b : B) (l : list A) : result B :=
  match l with
  | [] => Ok b
  | x :: l' => b' ← f b x; foldM f b' l'
  end.

(** A list comprehension whose body may raise. *)
Fixpoint comprehension {A B} (f : A → result B) (l : list A) : result (list B) :=
  match l with
  | [] => Ok []
  | x :: l' => y ← f x; ys ← comprehension f l'; Ok (y :: ys)
  end.

(** ** Values: numpy scalars and arrays, polars cells *)

(** The float64 numbers: binary64, a mantissa of 53 bits and the exponent
    of the infinities 1024, rounded to the nearest even. *)
Abbreviation float64 := spec_float.

Definition f64_sub : float64 → float64 → float64 := SFsub 53 1024.

(** The float64 nearest to an integer. *)
Definition f64_of_Z (n : Z) : float64 := binary_normalize 53 1024 n 0 false.

Global Instance float64_eq_dec : EqDecision float64.
Proof. solve_decision. Defined.

Inductive ndarray :=
| Float64 (xs : list float64)
| Int64 (xs : list Z)
| Str (xs : list string).

Inductive value :=
| VFloat (x : float64)
| VInt (n : Z)
| VStr (s : string)
| VNone
| VArray (a : ndarray).

Global Instance ndarray_eq_dec : EqDecision ndarray.
Proof. solve_decision. Defined.

Global Instance value_eq_dec : EqDecision value.
Proof. solve_decision. Defined.

(** [len(a)] *)
Definition arr_len (a : ndarray) : nat :=
  match a with
  | Float64 xs => length xs
  | Int64 xs => length xs
  | Str xs => length xs
  end.

(** The elements of an array, as Python sees them when it iterates. *)
Definition arr_items (a : ndarray) : list value :=
  match a with
  | Float64 xs => VFloat <$> xs
  | Int64 xs => VInt <$> xs
  | Str xs => VStr <$> xs
  end.

(** [a[i]] for a non-negative [i]; numpy raises IndexError out of range. *)
Definition arr_getitem (a : ndarray) (i : nat) : result value :=
  match arr_items a !! i with
  | Some v => Ok v
  | None => Raise IndexError
  end.

(** Two's complement wrap-around of int64 arithmetic. *)
Definition wrap64 (z : Z) : Z := ((z + 2 ^ 63) `mod` 2 ^ 64 - 2 ^ 63)%Z.

(** [a - v] for a scalar [v], elementwise; numpy has no subtraction on
    strings. *)
Definition arr_sub (a : ndarray) (v : value) : result ndarray :=
  match a, v with
  | Float64 xs, VFloat x => Ok (Float64 ((λ t, f64_sub t x) <$> xs))
  | Float64 xs, VInt n => Ok (Float64 ((λ t, f64_sub t (f64_of_Z n)) <$> xs))
  | Int64 xs, VInt n => Ok (Int64 ((λ t, wrap64 (t - n)) <$> xs))
  | Int64 xs, VFloat x => Ok (Float64 ((λ t, f64_sub (f64_of_Z t) x) <$> xs))
  | _, _ => Raise TypeError
  end.

(** ** The polars data frame *)

Abbreviation Series := (list value).
Definition DataFrame := list (string * Series).

(** [df.columns] *)
Definition columns (df : DataFrame) : list string := df.*1.

(** [df.shape[0]]: the length of the columns, 0 without columns. *)
Definition height (df : DataFrame) : nat :=
  match df with
  | [] => 0
  | (_, s) :: _ => length s
  end.

(** polars keeps column names distinct and all columns of one length. *)
Definition wf_df (df : DataFrame) : Prop :=
  NoDup (columns df) ∧ Forall (λ c, length c.2 = height df) df.

Global Instance wf_df_dec df : Decision (wf_df df).
Proof. unfold wf_df. apply _. Defined.

(** [df[name]] for a string: the column, or ColumnNotFoundError. *)
Fixpoint get_column (name : string) (df : DataFrame) : result Series :=
  match df with
  | [] => Raise ColumnNotFoundError
  | (n, s) :: df' => if decide (n = name) then Ok s else get_column name df'
  end.

(** [df.slice(offset, length)] *)
Definition df_slice (offset len : nat) (df : DataFrame) : DataFrame :=
  (λ c, (c.1, take len (drop offset c.2))) <$> df.

(** [df[idx]] for an integer: the one-row frame at [idx].  A negative
    index counts from the end; out of range polars raises IndexError. *)
Definition df_getitem (df : DataFrame) (idx : Z) : result DataFrame :=
  let n := Z.of_nat (height df) in
  if bool_decide (idx >= n)%Z || bool_decide (idx < - n)%Z then Raise IndexError
  else Ok (df_slice (Z.to_nat (if bool_decide (idx < 0)%Z then idx + n else idx)%Z) 1 df).

(** Older polars releases had no bounds check: [df[idx]] was
    [df.slice(idx, 1)], whose offsets are clamped to the frame, so that
    the slice is empty out of range. *)
Definition clamp (n : nat) (z : Z) : nat := Z.to_nat (Z.min (Z.max 0 z) (Z.of_nat n)).

Definition df_getitem_legacy (df : DataFrame) (idx : Z) : DataFrame :=
  let n := height df in
  let start := (if bool_decide (idx < 0)%Z then idx + Z.of_nat n else idx)%Z in
  let stop := (start + 1)%Z in
  df_slice (clamp n start) (clamp n stop - clamp n start) df.

(** [series[idx]] for a non-negative [idx]. *)
Definition series_getitem (s : Series) (idx : nat) : result value :=
  match s !! idx with
  | Some v => Ok v
  | None => Raise IndexError
  end.

(** [x.to_numpy()]: only a list cell (a polars Series) has the method. *)
Definition to_numpy (v : value) : result ndarray :=
  match v with
  | VArray a => Ok a
  | _ => Raise AttributeError
  end.

(** ** LSST_Source *)

(** The instance dictionary of an [LSST_Source] object. *)
Abbreviation LSST_Source := (gmap string value).

Definition time_series_features : list string :=
  ["MJD"; "BAND"; "PHOTFLAG"; "FLUXCAL"; "FLUXCALERR"].

Definition other_features : list string :=
  ["RA"; "DEC"; "MWEBV"; "MWEBV_ERR"; "REDSHIFT_HELIO"; "REDSHIFT_HELIO_ERR";
   "VPEC"; "VPEC_ERR"; "HOSTGAL_FLAG"; "HOSTGAL_PHOTOZ"; "HOSTGAL_PHOTOZ_ERR";
   "HOSTGAL_SPECZ"; "HOSTGAL_SPECZ_ERR"; "HOSTGAL_RA"; "HOSTGAL_DEC";
   "HOSTGAL_SNSEP"; "HOSTGAL_DDLR"; "HOSTGAL_CONFUSION"; "HOSTGAL_LOGMASS";
   "HOSTGAL_LOGMASS_ERR"; "HOSTGAL_LOGSFR"; "HOSTGAL_LOGSFR_ERR";
   "HOSTGAL_LOGsSFR"; "HOSTGAL_LOGsSFR_ERR"; "HOSTGAL_COLOR";
   "HOSTGAL_COLOR_ERR"; "HOSTGAL_ELLIPTICITY"; "HOSTGAL_MAG_u"; "HOSTGAL_MAG_g";
   "HOSTGAL_MAG_r"; "HOSTGAL_MAG_i"; "HOSTGAL_MAG_z"; "HOSTGAL_MAG_Y";
   "HOSTGAL_MAGERR_u"; "HOSTGAL_MAGERR_g"; "HOSTGAL_MAGERR_r";
   "HOSTGAL_MAGERR_i"; "HOSTGAL_MAGERR_z"; "HOSTGAL_MAGERR_Y"].

Definition custom_engineered_features : list string :=
  ["MW_plane_flag"; "ELAIS_S1_flag"; "XMM-LSS_flag";
   "Extended_Chandra_Deep_Field-South_flag"; "COSMOS_flag"].

(** Pass band to color, an ordered dictionary. *)
Definition colors : list (string * string) :=
  [("u", "blue"); ("g", "green"); ("r", "red"); ("i", "teal");
   ("z", "orange"); ("Y", "purple")].

(** [getattr(self, name)] for a name that is no class attribute. *)
Definition getattr (self : LSST_Source) (name : string) : result value :=
  match self !! name with
  | Some v => Ok v
  | None => Raise AttributeError
  end.

(** [s.to_numpy()[0]] and [s[0]] on a column.  numpy holds the cells of
    a column without a null as they are.  A column with a null cell is
    converted as a whole by [to_numpy] (nan for the null, floats for the
    integers beside it); [item0] leaves this conversion out, and is
    [s.to_numpy()[0]] on the columns that [null_free] describes. *)
Definition item0 (s : Series) : result value := series_getitem s 0.

(** The columns [__init__] reads with [to_numpy()[0]]. *)
Definition scalar_columns : list string :=
  "ELASTICC_class" :: "SNID" :: other_features.

Definition is_null (v : value) : bool :=
  match v with
  | VNone => true
  | _ => false
  end.

(** No column read with [to_numpy()[0]] has a null cell. *)
Definition null_free (df : DataFrame) : bool :=
  forallb (λ kc, negb (bool_decide (kc.1 ∈ scalar_columns))
                 || forallb (λ v, negb (is_null v)) kc.2) df.

Section Taxonomy.

(** The taxonomy mapper of [taxonomy.py]: a pure function from the
    fine-grained class label to the astrophysical class label. *)
Variable get_astrophysical_class : value → value.

(** The body of the loop over [parquet_row.columns] in [__init__]. *)
Definition set_feature (parquet_row : DataFrame) (self : LSST_Source)
    (key : string) : result LSST_Source :=
  if bool_decide (key ∈ other_features) then
    col ← get_column key parquet_row;
    v ← item0 col;
    Ok (<[key := v]> self)
  else if bool_decide (key ∈ time_series_features) then
    col ← get_column key parquet_row;
    cell ← item0 col;
    a ← to_numpy cell;
    Ok (<[key := VArray a]> self)
  else Ok self.

(** [LSST_Source.__init__] *)
Definition LSST_Source_init (parquet_row : DataFrame) : result LSST_Source :=
  col ← get_column "ELASTICC_class" parquet_row;
  c ← item0 col;
  let self : LSST_Source := <["ELASTICC_class" := c]> ∅ in
  col ← get_column "SNID" parquet_row;
  s ← item0 col;
  let self := <["SNID" := s]> self in
  c' ← getattr self "ELASTICC_class";
  let self := <["astrophysical_class" := get_astrophysical_class c']> self in
  foldM (set_feature parquet_row) self (columns parquet_row).

End Taxonomy.

(** [t[i]] on a tuple *)
Definition tuple_getitem {A} (t : list A) (i : nat) : result A :=
  match t !! i with
  | Some x => Ok x
  | None => Raise IndexError
  end.

(** ** Operations of Python on values *)

(** [v[i]] *)
Definition subscript (v : value) (i : nat) : result value :=
  match v with
  | VArray a => arr_getitem a i
  | _ => Raise TypeError
  end.

(** [v - w] *)
Definition py_sub (v w : value) : result value :=
  match v with
  | VArray a => a' ← arr_sub a w; Ok (VArray a')
  | _ => Raise TypeError
  end.

(** [len(v)] *)
Definition py_len (v : value) : result nat :=
  match v with
  | VArray a => Ok (arr_len a)
  | _ => Raise TypeError
  end.

(** The items [for x in v] runs through. *)
Definition py_items (v : value) : result (list value) :=
  match v with
  | VArray a => Ok (arr_items a)
  | _ => Raise TypeError
  end.

(** ** The astropy table *)

Record Table := {
  table_columns : list (string * ndarray);
  table_meta : list (string * value);
}.

Global Instance Table_eq_dec : EqDecision Table.
Proof. solve_decision. Defined.

(** [Table()] *)
Definition Table_new : Table := {| table_columns := []; table_meta := [] |}.

(** [len(table)]: the length of its columns, 0 without columns. *)
Definition table_len (t : Table) : nat :=
  match table_columns t with
  | [] => 0
  | (_, c) :: _ => arr_len c
  end.

(** [np.broadcast_to] of a one-element array to [n] elements. *)
Definition broadcast_to (n : nat) (a : ndarray) : ndarray :=
  match a with
  | Float64 xs => Float64 (concat (replicate n xs))
  | Int64 xs => Int64 (concat (replicate n xs))
  | Str xs => Str (concat (replicate n xs))
  end.

(** The shape [Table.add_column] gives a new column: a column of one
    element is broadcast to the length of a table that has rows. *)
Definition fit_column (n : nat) (col : ndarray) : ndarray :=
  if bool_decide (arr_len col = 1) && bool_decide (0 < n)
  then broadcast_to n col else col.

(** [Table.add_column]: a column of another length than the table's is
    refused. *)
Definition add_column (name : string) (col : ndarray) (t : Table) : result Table :=
  let col := fit_column (table_len t) col in
  if bool_decide (0 < length (table_columns t)) && bool_decide (arr_len col ≠ table_len t)
  then Raise ValueError
  else Ok {| table_columns := table_columns t ++ [(name, col)];
             table_meta := table_meta t |}.

(** [table[name] = v] for a name the table does not have yet, which
    adds a column.  [__init__] stores arrays only under the names read
    here; a value of another shape is refused. *)
Definition table_setitem (name : string) (v : value) (t : Table) : result Table :=
  match v with
  | VArray a => add_column name a t
  | _ => Raise TypeError
  end.

(** [d[k] = v] on an ordered dictionary. *)
Definition odict_set {V} (k : string) (v : V) (d : list (string * V)) : list (string * V) :=
  if bool_decide (k ∈ d.*1)
  then (λ kv, if decide (kv.1 = k) then (k, v) else kv) <$> d
  else d ++ [(k, v)].

Definition mismatch_message : string :=
  "Length of time series tensor does not match the number of mjd values.".

(** [get_event_table], first half: the table of the time series, up to
    the consistency check. *)
Definition time_series_table (self : LSST_Source) : result Table :=
  let table := Table_new in
  mjd ← getattr self "MJD";
  mjd' ← getattr self "MJD";
  mjd0 ← subscript mjd' 0;
  time ← py_sub mjd mjd0;
  table ← table_setitem "time" time table;
  photflag ← getattr self "PHOTFLAG";
  table ← table_setitem "photflag" photflag table;
  fluxcal ← getattr self "FLUXCAL";
  table ← table_setitem "flux" fluxcal table;
  fluxcalerr ← getattr self "FLUXCALERR";
  table ← table_setitem "fluxErr" fluxcalerr table;
  band ← getattr self "BAND";
  table ← table_setitem "passband" band table;
  mjd ← getattr self "MJD";
  n ← py_len mjd;
  if bool_decide (table_len table = n) then Ok table
  else Raise (AssertionError mismatch_message).

(** [get_event_table], second half: the ordered dictionary of the static
    features. *)
Definition static_features (self : LSST_Source) : result (list (string * value)) :=
  foldM (λ feature_static other_feature,
           v ← getattr self other_feature;
           Ok (odict_set other_feature v feature_static))
        [] other_features.

(** [LSST_Source.get_event_table] *)
Definition get_event_table (self : LSST_Source) : result Table :=
  table ← time_series_table self;
  feature_static ← static_features self;
  Ok {| table_columns := table_columns table; table_meta := feature_static |}.

(** [table[name]] *)
Definition table_column (name : string) (t : Table) : option ndarray :=
  snd <$> (snd <$> list_find (λ c, c.1 = name) (table_columns t)).

(** ** Plotting *)

(** What matplotlib is asked to draw. *)
Inductive draw :=
| Errorbar (x y yerr : value) (color fmt markersize : string)
| Title (snid elasticc_class : value)
| Xlabel (s : string)
| Ylabel (s : string)
| Legend (handles : list (string * string))
| ShowFigure.

(** A computation that draws on the current figure and may raise. *)
Definition Plt (A : Type) : Type := list draw → result A * list draw.

Definition plt_ret {A} (a : A) : Plt A := λ fig, (Ok a, fig).

Definition plt_bind {A B} (m : Plt A) (f : A → Plt B) : Plt B := λ fig,
  match m fig with
  | (Ok a, fig') => f a fig'
  | (Raise e, fig') => (Raise e, fig')
  end.

Notation "x ⇐ m ; k" := (plt_bind m (λ x, k))
  (at level 20, m at level 100, k at level 200, only parsing, right associativity).

(** A step that does not draw. *)
Definition pure {A} (m : result A) : Plt A := λ fig, (m, fig).

(** A call of [plt]. *)
Definition plt (d : draw) : Plt unit := λ fig, (Ok (), fig ++ [d]).

(** [for i in l: body i] *)
Fixpoint for_each {A} (body : A → Plt unit) (l : list A) : Plt unit :=
  match l with
  | [] => plt_ret ()
  | i :: l' => _ ⇐ body i; for_each body l'
  end.

(** [self.colors[band]] *)
Definition colors_getitem (band : value) : result string :=
  match band with
  | VStr b =>
      match list_find (λ kv, kv.1 = b) colors with
      | Some (_, kv) => Ok kv.2
      | None => Raise KeyError
      end
  | _ => Raise KeyError
  end.

(** [np.where((photflag & 4096) != 0, '*', '.')] *)
Definition detection_markers (photflag : value) : result (list string) :=
  match photflag with
  | VArray (Int64 xs) =>
      Ok ((λ f, if bool_decide (Z.land f 4096 ≠ 0%Z) then "*" else ".") <$> xs)
  | _ => Raise TypeError
  end.

(** [LSST_Source.plot_flux_curve] *)
Definition plot_flux_curve (self : LSST_Source) : Plt unit :=
  band ⇐ pure (getattr self "BAND");
  bands ⇐ pure (py_items band);
  c ⇐ pure (comprehension colors_getitem bands);
  patches ⇐ pure (comprehension
                    (λ band, color ← colors_getitem (VStr band); Ok (color, band))
                    colors.*1);
  photflag ⇐ pure (getattr self "PHOTFLAG");
  fmts ⇐ pure (detection_markers photflag);
  mjd ⇐ pure (getattr self "MJD");
  n ⇐ pure (py_len mjd);
  _ ⇐ for_each (λ i,
        mjd ⇐ pure (getattr self "MJD");
        x ⇐ pure (subscript mjd i);
        fluxcal ⇐ pure (getattr self "FLUXCAL");
        y ⇐ pure (subscript fluxcal i);
        fluxcalerr ⇐ pure (getattr self "FLUXCALERR");
        yerr ⇐ pure (subscript fluxcalerr i);
        color ⇐ pure (tuple_getitem c i);
        fmt ⇐ pure (tuple_getitem fmts i);
        plt (Errorbar x y yerr color fmt "10")) (seq 0 n);
  snid ⇐ pure (getattr self "SNID");
  elasticc_class ⇐ pure (getattr self "ELASTICC_class");
  _ ⇐ plt (Title snid elasticc_class);
  _ ⇐ plt (Xlabel "Time (MJD)");
  _ ⇐ plt (Ylabel "Calibrated Flux");
  _ ⇐ plt (Legend patches);
  plt ShowFigure.

(** matplotlib as the code meets it: a call returns or raises, by what
    it is asked and by what the figure holds. *)
Definition backend : Type := list draw → draw → result unit.

(** A call of [plt] answered by [call]: the request is on the figure
    when the call returns. *)
Definition plt_with (call : backend) (d : draw) : Plt unit := λ fig,
  match call fig d with
  | Ok _ => (Ok (), fig ++ [d])
  | Raise e => (Raise e, fig)
  end.

(** [LSST_Source.plot_flux_curve], with the calls of [plt] answered by
    [call]. *)
Definition plot_flux_curve_with (call : backend) (self : LSST_Source) : Plt unit :=
  band ⇐ pure (getattr self "BAND");
  bands ⇐ pure (py_items band);
  c ⇐ pure (comprehension colors_getitem bands);
  patches ⇐ pure (comprehension
                    (λ band, color ← colors_getitem (VStr band); Ok (color, band))
                    colors.*1);
  photflag ⇐ pure (getattr self "PHOTFLAG");
  fmts ⇐ pure (detection_markers photflag);
  mjd ⇐ pure (getattr self "MJD");
  n ⇐ pure (py_len mjd);
  _ ⇐ for_each (λ i,
        mjd ⇐ pure (getattr self "MJD");
        x ⇐ pure (subscript mjd i);
        fluxcal ⇐ pure (getattr self "FLUXCAL");
        y ⇐ pure (subscript fluxcal i);
        fluxcalerr ⇐ pure (getattr self "FLUXCALERR");
        yerr ⇐ pure (subscript fluxcalerr i);
        color ⇐ pure (tuple_getitem c i);
        fmt ⇐ pure (tuple_getitem fmts i);
        plt_with call (Errorbar x y yerr color fmt "10")) (seq 0 n);
  snid ⇐ pure (getattr self "SNID");
  elasticc_class ⇐ pure (getattr self "ELASTICC_class");
  _ ⇐ plt_with call (Title snid elasticc_class);
  _ ⇐ plt_with call (Xlabel "Time (MJD)");
  _ ⇐ plt_with call (Ylabel "Calibrated Flux");
  _ ⇐ plt_with call (Legend patches);
  plt_with call ShowFigure.

(** ** LSSTSourceDataSet *)

Record LSSTSourceDataSet := {
  path : string;
  parquet : DataFrame;
  num_sample : nat;
}.

(** [LSSTSourceDataSet.__init__]: [read_parquet] stands for the file
    system behind [pl.read_parquet]; the two progress messages are not
    modelled. *)
Definition loaded (p : string) (df : DataFrame) : LSSTSourceDataSet :=
  {| path := p; parquet := df; num_sample := height df |}.

Definition LSSTSourceDataSet_init (read_parquet : string → result DataFrame)
    (p : string) : result LSSTSourceDataSet :=
  df ← read_parquet p;
  Ok (loaded p df).

(** [__len__] *)
Definition len (self : LSSTSourceDataSet) : nat := num_sample self.

(** Python objects as [get_dimensions] meets them: an [LSST_Source]
    instance or a plain value. *)
Inductive pyobj :=
| PySource (o : LSST_Source)
| PyValue (v : value).

(** [iter(o)], as tuple unpacking calls it.  The class [LSST_Source]
    defines neither [__iter__] nor [__getitem__]. *)
Definition py_iter (o : pyobj) : result (list pyobj) :=
  match o with
  | PySource _ => Raise TypeError
  | PyValue (VArray a) => Ok (PyValue <$> arr_items a)
  | PyValue (VStr s) => Ok ((λ c, PyValue (VStr (String c ""))) <$> String.list_ascii_of_string s)
  | PyValue _ => Raise TypeError
  end.

(** [o.shape] *)
Definition py_shape (o : pyobj) : result (list nat) :=
  match o with
  | PyValue (VArray a) => Ok [arr_len a]
  | _ => Raise AttributeError
  end.

Record dims := {
  ts : nat;
  static : nat;
}.

(** The store of [LSST_Source] objects: every call of the class
    allocates a new object. *)
Abbreviation heap := (gmap nat LSST_Source).

Definition alloc (h : heap) (o : LSST_Source) : nat * heap :=
  let l := fresh (dom h) in (l, <[l := o]> h).

Section Dataset.

Variable get_astrophysical_class : value → value.

(** [__getitem__]: the attributes of the record it returns. *)
Definition getitem (self : LSSTSourceDataSet) (idx : Z) : result LSST_Source :=
  row ← df_getitem (parquet self) idx;
  source ← LSST_Source_init get_astrophysical_class row;
  Ok source.

(** [__getitem__] on a polars release without the bounds check. *)
Definition getitem_legacy (self : LSSTSourceDataSet) (idx : Z) : result LSST_Source :=
  let row := df_getitem_legacy (parquet self) idx in
  source ← LSST_Source_init get_astrophysical_class row;
  Ok source.

(** [__getitem__] with the object it creates: the reference returned and
    the store afterwards.  The data set itself is not written to. *)
Definition getitem_ref (self : LSSTSourceDataSet) (idx : Z) (h : heap)
    : result nat * heap :=
  match getitem self idx with
  | Ok source => let '(l, h') := alloc h source in (Ok l, h')
  | Raise e => (Raise e, h)
  end.

(** [get_dimensions] *)
Definition get_dimensions (self : LSSTSourceDataSet) : result dims :=
  let idx := 0%Z in
  source ← getitem self idx;
  items ← py_iter (PySource source);
  match items with
  | [ts_np; static_np; class_labels; _] =>
      sh_ts ← py_shape ts_np;
      d_ts ← tuple_getitem sh_ts 1;
      sh_static ← py_shape static_np;
      d_static ← tuple_getitem sh_static 0;
      Ok {| ts := d_ts; static := d_static |}
  | _ => Raise ValueError
  end.

(** [get_labels] *)
Definition get_labels (self : LSSTSourceDataSet) : result (list value) :=
  ELASTICC_labels ← get_column "ELASTICC_class" (parquet self);
  foldM (λ astrophysical_labels idx,
           elasticc_class ← series_getitem ELASTICC_labels idx;
           let astrophysical_class := get_astrophysical_class elasticc_class in
           Ok (astrophysical_labels ++ [astrophysical_class]))
        [] (seq 0 (num_sample self)).

End Dataset.

(** ** The words of the specification *)

(** The single cell of a column of a one-row frame, when the column is
    present. *)
Definition cell (row : DataFrame) (key : string) : option value :=
  match get_column key row with
  | Ok (v :: _) => Some v
  | _ => None
  end.

(** A column name of one of the two recognized feature sets. *)
Definition recognized (key : string) : bool :=
  bool_decide (key ∈ other_features) || bool_decide (key ∈ time_series_features).

Definition is_array (o : option value) : bool :=
  match o with
  | Some (VArray _) => true
  | _ => false
  end.

(** The input constraints of construction: the row has an identity
    column and a fine-grained class column, its static columns hold a
    value and its time-series columns hold a sequence. *)
Definition constructible (row : DataFrame) : bool :=
  bool_decide (is_Some (cell row "ELASTICC_class"))
  && bool_decide (is_Some (cell row "SNID"))
  && forallb (λ key,
       if bool_decide (key ∈ other_features) then bool_decide (is_Some (cell row key))
       else if bool_decide (key ∈ time_series_features) then is_array (cell row key)
       else true) (columns row).

(** What the specification says a record stores under each name: the
    identity and the fine-grained class, the derived coarse class, and
    every present column of a recognized set; nothing else. *)
Definition stored_by_spec (mapper : value → value) (row : DataFrame)
    (name : string) : option value :=
  if decide (name = "ELASTICC_class") then cell row "ELASTICC_class"
  else if decide (name = "SNID") then cell row "SNID"
  else if decide (name = "astrophysical_class") then mapper <$> cell row "ELASTICC_class"
  else if recognized name then cell row name
  else None.

(** The six passbands of the survey. *)
Definition passbands : list string := ["u"; "g"; "r"; "i"; "z"; "Y"].

(** The smaller of two float64, NaN when one of them is NaN, as [np.min]
    has it. *)
Definition f64_min (x y : float64) : float64 :=
  match x, y with
  | S754_nan, _ | _, S754_nan => S754_nan
  | _, _ => if SFltb x y then x else y
  end.

(** The minimum observed time. *)
Definition arr_min (a : ndarray) : option value :=
  match a with
  | Float64 (x :: xs) => Some (VFloat (foldr f64_min x xs))
  | Int64 (x :: xs) => Some (VInt (foldr Z.min x xs))
  | _ => None
  end.

(** Times as differences from the minimum observed time, the reading of
    the specification. *)
Definition since_minimum (a : ndarray) : option ndarray :=
  match a with
  | Float64 (x :: xs) =>
      let m := foldr f64_min x xs in Some (Float64 ((λ t, f64_sub t m) <$> x :: xs))
  | Int64 (x :: xs) =>
      let m := foldr Z.min x xs in Some (Int64 ((λ t, wrap64 (t - m)) <$> x :: xs))
  | _ => None
  end.

(** Times as differences from the first stored time. *)
Definition since_first (a : ndarray) : option ndarray :=
  match a with
  | Float64 (x0 :: xs) => Some (Float64 ((λ t, f64_sub t x0) <$> x0 :: xs))
  | Int64 (x0 :: xs) => Some (Int64 ((λ t, wrap64 (t - x0)) <$> x0 :: xs))
  | _ => None
  end.

(** A time that is a number: an integer, or a float that is neither an
    infinity nor NaN. *)
Definition finite (v : value) : bool :=
  match v with
  | VInt _ => true
  | VFloat (S754_zero _) | VFloat (S754_finite _ _ _) => true
  | _ => false
  end.

Definition is_zero (v : value) : bool :=
  match v with
  | VInt 0 => true
  | VFloat (S754_zero _) => true
  | _ => false
  end.

Definition is_nan (v : value) : bool :=
  match v with
  | VFloat S754_nan => true
  | _ => false
  end.

(** The columns of the table of a record with the five time series
    [mjd], [pf], [fc], [fe], [bd]. *)
Definition event_columns (time pf fc fe bd : ndarray) : list (string * ndarray) :=
  let n := arr_len time in
  [("time", time); ("photflag", fit_column n pf); ("flux", fit_column n fc);
   ("fluxErr", fit_column n fe); ("passband", fit_column n bd)].



(** A time series that the table takes beside a time column of [n]
    entries: a sequence of [n] entries, or of one. *)
Definition series_fits (n : nat) (o : option value) : bool :=
  match o with
  | Some (VArray a) => bool_decide (arr_len a = n) || bool_decide (arr_len a = 1)
  | _ => false
  end.

Definition numeric (a : ndarray) : bool :=
  match a with
  | Str _ => false
  | _ => true
  end.

(** The records [get_event_table] has a table for. *)
Definition exportable (self : LSST_Source) : bool :=
  match self !! "MJD" with
  | Some (VArray mjd) =>
      numeric mjd && bool_decide (0 < arr_len mjd)
      && forallb (λ key, series_fits (arr_len mjd) (self !! key))
                 ["PHOTFLAG"; "FLUXCAL"; "FLUXCALERR"; "BAND"]
      && forallb (λ f, bool_decide (is_Some (self !! f))) other_features
  | _ => false
  end.

(** The time series behind each column of the table. *)
Definition column_sources : list (string * string) :=
  [("PHOTFLAG", "photflag"); ("FLUXCAL", "flux"); ("FLUXCALERR", "fluxErr");
   ("BAND", "passband")].

(** The point [plot_flux_curve] draws for observation [i], given the
    colours [c] and the markers [fmts] of the observations. *)
Definition errorbar_at (mjd fluxcal fluxcalerr : ndarray) (c fmts : list string)
    (i : nat) : draw :=
  Errorbar (default VNone (arr_items mjd !! i))
           (default VNone (arr_items fluxcal !! i))
           (default VNone (arr_items fluxcalerr !! i))
           (default "" (c !! i)) (default "" (fmts !! i)) "10".

(** The handles of the legend: a patch of its colour for each passband. *)
Definition legend_handles : list (string * string) :=
  (λ kv, (kv.2, kv.1)) <$> colors.

(** The requests [ds] made of matplotlib one after the other, up to the
    first it refuses. *)
Definition issue (call : backend) (ds : list draw) : Plt unit :=
  for_each (plt_with call) ds.

(** What follows the points of the observations. *)
Definition decorations (snid elasticc_class : value) : list draw :=
  [Title snid elasticc_class; Xlabel "Time (MJD)"; Ylabel "Calibrated Flux";
   Legend legend_handles; ShowFigure].

(** ** Sample data *)

Definition q (n : Z) : float64 := f64_of_Z n.

(** A one-row frame with all static columns and the given time series. *)
Definition sample_row (mjd band photflag fluxcal fluxcalerr : ndarray) : DataFrame :=
  [("SNID", [VInt 7]); ("ELASTICC_class", [VStr "SNIa"]);
   ("MJD", [VArray mjd]); ("BAND", [VArray band]); ("PHOTFLAG", [VArray photflag]);
   ("FLUXCAL", [VArray fluxcal]); ("FLUXCALERR", [VArray fluxcalerr]);
   ("NOBS", [VInt 3])]
  ++ ((λ k, (k, [VFloat (q 1)])) <$> other_features).

(** The taxonomy of the scenarios. *)
Definition sample_taxonomy (c : value) : value :=
  match c with
  | VStr "SNIa" => VStr "Ia"
  | VStr "SNII" => VStr "CC"
  | _ => VNone
  end.

(** Three observations in time order. *)
Definition sorted_row : DataFrame :=
  sample_row (Float64 [q 1; q 2; q 4]) (Str ["g"; "r"; "g"]) (Int64 [0; 4096; 0]%Z)
             (Float64 [q 10; q 20; q 30]) (Float64 [q 1; q 1; q 1]).

(** Two observations, the later one stored first. *)
Definition unsorted_row : DataFrame :=
  sample_row (Float64 [q 5; q 3]) (Str ["g"; "r"]) (Int64 [0; 4096]%Z)
             (Float64 [q 10; q 20]) (Float64 [q 1; q 1]).

(** BAND shorter than MJD. *)
Definition short_band_row : DataFrame :=
  sample_row (Float64 [q 1; q 2; q 4]) (Str ["g"; "r"]) (Int64 [0; 4096; 0]%Z)
             (Float64 [q 10; q 20; q 30]) (Float64 [q 1; q 1; q 1]).

(** BAND with a single entry. *)
Definition single_band_row : DataFrame :=
  sample_row (Float64 [q 1; q 2; q 4]) (Str ["g"]) (Int64 [0; 4096; 0]%Z)
             (Float64 [q 10; q 20; q 30]) (Float64 [q 1; q 1; q 1]).

(** No column RA and no observation. *)
Definition no_observation_row : DataFrame :=
  [("SNID", [VInt 7]); ("ELASTICC_class", [VStr "SNIa"]);
   ("MJD", [VArray (Float64 [])]); ("BAND", [VArray (Str [])]);
   ("PHOTFLAG", [VArray (Int64 [])]); ("FLUXCAL", [VArray (Float64 [])]);
   ("FLUXCALERR", [VArray (Float64 [])])]
  ++ ((λ k, (k, [VFloat (q 1)])) <$> tail other_features).

(** No column RA, three observations. *)
Definition no_ra_row : DataFrame :=
  [("SNID", [VInt 7]); ("ELASTICC_class", [VStr "SNIa"]);
   ("MJD", [VArray (Float64 [q 1; q 2; q 4])]); ("BAND", [VArray (Str ["g"; "r"; "g"])]);
   ("PHOTFLAG", [VArray (Int64 [0; 4096; 0]%Z)]);
   ("FLUXCAL", [VArray (Float64 [q 10; q 20; q 30])]);
   ("FLUXCALERR", [VArray (Float64 [q 1; q 1; q 1])])]
  ++ ((λ k, (k, [VFloat (q 1)])) <$> tail other_features).


(** The second flux error is negative. *)
Definition negative_error_row : DataFrame :=
  sample_row (Float64 [q 1; q 2; q 4]) (Str ["g"; "r"; "g"]) (Int64 [0; 4096; 0]%Z)
             (Float64 [q 10; q 20; q 30]) (Float64 [q 1; q (-1); q 1]).

(** A backend that accepts every request. *)
Definition accepting : backend := λ _ _, Ok ().

(** A backend that refuses an error bar of negative length, as
    [plt.errorbar] does. *)
Definition refuses_negative_yerr : backend := λ _ d,
  match d with
  | Errorbar _ _ (VFloat yerr) _ _ _ => if SFltb yerr (q 0) then Raise ValueError else Ok ()
  | Errorbar _ _ (VInt yerr) _ _ _ => if bool_decide (yerr < 0)%Z then Raise ValueError else Ok ()
  | _ => Ok ()
  end.

(** The table of the scenario of [get_labels]. *)
Definition three_rows : DataFrame :=
  [("SNID", [VInt 1; VInt 2; VInt 3]);
   ("ELASTICC_class", [VStr "SNIa"; VStr "SNII"; VStr "SNIa"])].

(** A data set of two sources. *)
Definition two_sources : DataFrame :=
  [("SNID", [VInt 1; VInt 2]);
   ("ELASTICC_class", [VStr "SNIa"; VStr "SNII"]);
   ("RA", [VFloat (q 10); VFloat (q 20)]);
   ("MJD", [VArray (Float64 [q 1; q 2]); VArray (Float64 [q 5])]);
   ("BAND", [VArray (Str ["g"; "r"]); VArray (Str ["u"; "g"; "r"])])].

(** The record of a sample row and the table of a sample record. *)
Definition source_of (row : DataFrame) : LSST_Source :=
  match LSST_Source_init sample_taxonomy row with
  | Ok r => r
  | Raise _ => ∅
  end.

Definition table_of (self : LSST_Source) : Table :=
  match get_event_table self with
  | Ok t => t
  | Raise _ => Table_new
  end.

Definition dataset_of (df : DataFrame) : LSSTSourceDataSet :=
  loaded "elasticc.parquet" df.

(** * Properties *)

(** ** Fallible computations *)

Lemma bind_Ok {A B} (m : result A) (f : A → result B) (b : B) :
  m ≫= f = Ok b → ∃ a, m = Ok a ∧ f a = Ok b.
Proof. destruct m as [a|e]; [eauto | discriminate]. Qed.

(** Peel the successful binds off a hypothesis [_ = Ok _]. *)
Ltac inv_ok H :=
  repeat match type of H with
  | (_ ≫= _) = Ok _ =>
      let a := fresh "a" in
      let Ha := fresh "Ha" in
      apply bind_Ok in H as (a & Ha & H)
  end.

Lemma foldM_app {A B} (f : B → A → result B) (b : B) (l1 l2 : list A) :
  foldM f b (l1 ++ l2) = foldM f b l1 ≫= λ b', foldM f b' l2.
Proof.
  revert b. induction l1 as [|x l1 IH]; intros b; simpl; [reflexivity|].
  destruct (f b x) as [b'|e]; simpl; [apply IH | reflexivity].
Qed.

Lemma foldM_ext {A B} (f g : B → A → result B) (b : B) (l : list A) :
  (∀ b x, x ∈ l → f b x = g b x) → foldM f b l = foldM g b l.
Proof.
  revert b. induction l as [|x l IH]; intros b Hfg; simpl; [reflexivity|].
  rewrite Hfg by left. destruct (g b x) as [b'|e]; simpl; [|reflexivity].
  apply IH. intros b0 y Hy. apply Hfg. by right.
Qed.

Lemma comprehension_length {A B} (f : A → result B) (l : list A) (ys : list B) :
  comprehension f l = Ok ys → length ys = length l.
Proof.
  revert ys. induction l as [|x l IH]; intros ys H; simpl in H.
  - by inversion H.
  - inv_ok H. inversion H; subst. simpl. f_equal. by apply IH.
Qed.

Lemma comprehension_Ok {A B} (f : A → result B) (l : list A) :
  Forall (λ x, is_Ok (f x) = true) l → ∃ ys, comprehension f l = Ok ys.
Proof.
  induction 1 as [|x l Hx _ [ys IH]]; simpl; [eauto|].
  destruct (f x) as [y|e]; [|discriminate]. simpl. rewrite IH. simpl. eauto.
Qed.


(** ** Data frames *)

Lemma get_column_elem (name : string) (df : DataFrame) :
  name ∈ columns df → ∃ s, get_column name df = Ok s.
Proof.
  induction df as [|[n s] df IH]; simpl; intros H; [by inversion H|].
  destruct (decide (n = name)); [eauto|].
  apply IH. inversion H; subst; [done | assumption].
Qed.

Lemma get_column_not_elem (name : string) (df : DataFrame) :
  name ∉ columns df → get_column name df = Raise ColumnNotFoundError.
Proof.
  induction df as [|[n s] df IH]; simpl; intros H; [reflexivity|].
  destruct (decide (n = name)) as [->|]; [exfalso; apply H; left|].
  apply IH. intros Hin. apply H. by right.
Qed.

Lemma get_column_Ok_elem (name : string) (df : DataFrame) (s : Series) :
  get_column name df = Ok s → (name, s) ∈ df.
Proof.
  induction df as [|[n s'] df IH]; simpl; [discriminate|].
  destruct (decide (n = name)) as [->|]; intros H.
  - inversion H. left.
  - right. by apply IH.
Qed.

Lemma get_column_insert (name key : string) (col : Series) (pre post : DataFrame) :
  name ≠ key →
  get_column name (pre ++ (key, col) :: post) = get_column name (pre ++ post).
Proof.
  intros Hne. induction pre as [|[n s] pre IH]; simpl.
  - destruct (decide (key = name)); [congruence | reflexivity].
  - destruct (decide (n = name)); [reflexivity | apply IH].
Qed.

Lemma cell_not_elem (row : DataFrame) (name : string) :
  name ∉ columns row → cell row name = None.
Proof. intros H. unfold cell. by rewrite get_column_not_elem. Qed.

Lemma get_column_slice (name : string) (df : DataFrame) (off n : nat) :
  get_column name (df_slice off n df)
  = s ← get_column name df; Ok (take n (drop off s)).
Proof.
  induction df as [|[k s] df IH]; simpl; [reflexivity|].
  destruct (decide (k = name)); [reflexivity | apply IH].
Qed.

(** ** Construction of a source record *)

Lemma item0_cons (v : value) (s : Series) : item0 (v :: s) = Ok v.
Proof. reflexivity. Qed.

Lemma item0_Ok (s : Series) (v : value) : item0 s = Ok v → ∃ s', s = v :: s'.
Proof. destruct s as [|v' s']; [discriminate|]. intros H. inversion H. eauto. Qed.

Lemma cell_of_column (row : DataFrame) (key : string) (col : Series) (v : value) :
  get_column key row = Ok col → item0 col = Ok v → cell row key = Some v.
Proof.
  intros Hcol Hv. apply item0_Ok in Hv as [s' ->]. unfold cell. by rewrite Hcol.
Qed.

Lemma cell_Some (row : DataFrame) (key : string) (v : value) :
  cell row key = Some v → ∃ col, get_column key row = Ok col ∧ item0 col = Ok v.
Proof.
  unfold cell. destruct (get_column key row) as [[|v' s]|e]; try discriminate.
  intros H. inversion H; subst. eauto.
Qed.

Lemma to_numpy_Ok (v : value) (a : ndarray) : to_numpy v = Ok a → v = VArray a.
Proof. destruct v; simpl; intros H; inversion H. reflexivity. Qed.

Lemma fixed_names_unrecognized (name : string) :
  name ∈ ["ELASTICC_class"; "SNID"; "astrophysical_class"] → recognized name = false.
Proof.
  intros H. repeat (apply elem_of_cons in H as [->|H]; [by vm_compute|]).
  by apply elem_of_nil in H.
Qed.

Lemma time_series_not_static (name : string) :
  name ∈ time_series_features → bool_decide (name ∈ other_features) = false.
Proof.
  intros H. repeat (apply elem_of_cons in H as [->|H]; [by vm_compute|]).
  by apply elem_of_nil in H.
Qed.

Lemma set_feature_unrecognized (row : DataFrame) (self : LSST_Source) (key : string) :
  recognized key = false → set_feature row self key = Ok self.
Proof.
  unfold recognized, set_feature. intros H. apply orb_false_elim in H as [-> ->].
  reflexivity.
Qed.

Lemma set_feature_Ok (row : DataFrame) (self self' : LSST_Source) (key : string) :
  set_feature row self key = Ok self' →
  if recognized key
  then ∃ v, cell row key = Some v ∧ self' = <[key := v]> self
  else self' = self.
Proof.
  unfold set_feature, recognized. intros H.
  destruct (bool_decide (key ∈ other_features)); simpl.
  - inv_ok H. inversion H; subst. eauto using cell_of_column.
  - destruct (bool_decide (key ∈ time_series_features)).
    + inv_ok H. inversion H; subst. apply to_numpy_Ok in Ha1 as ->.
      eauto using cell_of_column.
    + by inversion H.
Qed.

Lemma set_feature_insert (row pre post : DataFrame) (key k : string) (col : Series)
    (self : LSST_Source) :
  recognized key = false →
  set_feature (pre ++ (key, col) :: post) self k = set_feature (pre ++ post) self k.
Proof.
  intros Hkey. destruct (recognized k) eqn:Hk.
  - assert (k ≠ key) as Hne by congruence.
    unfold set_feature. by rewrite !get_column_insert.
  - by rewrite !set_feature_unrecognized.
Qed.

(** The loop of [__init__] writes the cell of every recognized column
    it runs through and leaves every other attribute alone. *)
Lemma init_loop_lookup (row : DataFrame) (keys : list string) (self r : LSST_Source) :
  foldM (set_feature row) self keys = Ok r →
  ∀ name, r !! name =
          if bool_decide (name ∈ keys) && recognized name then cell row name
          else self !! name.
Proof.
  revert self. induction keys as [|k keys IH]; intros self H name; simpl in H.
  - inversion H; subst. reflexivity.
  - inv_ok H. rewrite (IH _ H name). apply set_feature_Ok in Ha.
    destruct (decide (name = k)) as [->|Hne].
    + rewrite (bool_decide_eq_true_2 (k ∈ k :: keys)) by left.
      destruct (recognized k); simpl.
      * destruct Ha as (v & Hv & ->). rewrite lookup_insert_eq.
        by destruct (bool_decide (k ∈ keys)).
      * subst a. by rewrite andb_false_r.
    + assert (bool_decide (name ∈ k :: keys) = bool_decide (name ∈ keys)) as ->.
      { apply bool_decide_ext. rewrite elem_of_cons. tauto. }
      destruct (bool_decide (name ∈ keys) && recognized name); [reflexivity|].
      destruct (recognized k).
      * destruct Ha as (v & Hv & ->). by rewrite lookup_insert_ne.
      * by subst a.
Qed.

Lemma init_loop_Ok (row : DataFrame) (keys : list string) (self : LSST_Source) :
  forallb (λ key,
     if bool_decide (key ∈ other_features) then bool_decide (is_Some (cell row key))
     else if bool_decide (key ∈ time_series_features) then is_array (cell row key)
     else true) keys = true →
  ∃ r, foldM (set_feature row) self keys = Ok r.
Proof.
  revert self. induction keys as [|k keys IH]; intros self H; simpl in *; [eauto|].
  apply andb_prop in H as [Hk Hkeys].
  assert (∃ self', set_feature row self k = Ok self') as [self' ->].
  { unfold set_feature. destruct (bool_decide (k ∈ other_features)).
    - apply bool_decide_eq_true in Hk as [v Hv].
      apply cell_Some in Hv as (col & -> & Hv). simpl. rewrite Hv. simpl. eauto.
    - destruct (bool_decide (k ∈ time_series_features)); [|eauto].
      destruct (cell row k) as [[| | | |a]|] eqn:Hv; try discriminate.
      apply cell_Some in Hv as (col & -> & Hv). simpl. rewrite Hv. simpl. eauto. }
  simpl. by apply IH.
Qed.

Section Construction.

Variable mapper : value → value.

(** A record holds what the specification lists, and nothing else. *)
Lemma init_stores (row : DataFrame) (r : LSST_Source) :
  LSST_Source_init mapper row = Ok r →
  ∀ name, r !! name = stored_by_spec mapper row name.
Proof.
  unfold LSST_Source_init. intros H name. inv_ok H.
  unfold getattr in Ha3. rewrite lookup_insert_ne, lookup_insert_eq in Ha3 by done.
  inversion Ha3; subst a3; clear Ha3.
  rewrite (init_loop_lookup _ _ _ _ H name).
  unfold stored_by_spec.
  rewrite (cell_of_column _ _ _ _ Ha Ha0), (cell_of_column _ _ _ _ Ha1 Ha2).
  destruct (decide (name = "ELASTICC_class")) as [->|?].
  { rewrite fixed_names_unrecognized, andb_false_r by set_solver. by simplify_map_eq. }
  destruct (decide (name = "SNID")) as [->|?].
  { rewrite fixed_names_unrecognized, andb_false_r by set_solver. by simplify_map_eq. }
  destruct (decide (name = "astrophysical_class")) as [->|?].
  { rewrite fixed_names_unrecognized, andb_false_r by set_solver. by simplify_map_eq. }
  destruct (recognized name); [|rewrite andb_false_r; by simplify_map_eq].
  rewrite andb_true_r. case_bool_decide as Hin; [reflexivity|].
  rewrite cell_not_elem by assumption. by simplify_map_eq.
Qed.

(** Construction succeeds on every row that meets its input constraints. *)
Lemma init_Ok (row : DataFrame) :
  constructible row = true → ∃ r, LSST_Source_init mapper row = Ok r.
Proof.
  unfold constructible. intros H.
  apply andb_prop in H as [H Hloop]. apply andb_prop in H as [Hc Hs].
  apply bool_decide_eq_true in Hc as [c Hc]. apply bool_decide_eq_true in Hs as [s Hs].
  apply cell_Some in Hc as (colc & Hcolc & Hc). apply cell_Some in Hs as (cols & Hcols & Hs).
  unfold LSST_Source_init. rewrite Hcolc. simpl. rewrite Hc. simpl.
  rewrite Hcols. simpl. rewrite Hs. simpl.
  unfold getattr. rewrite lookup_insert_ne, lookup_insert_eq by done. simpl.
  by apply init_loop_Ok.
Qed.

(** A column of neither recognized set changes nothing. *)
Lemma init_insert_unrecognized (pre post : DataFrame) (key : string) (col : Series) :
  recognized key = false → key ≠ "ELASTICC_class" → key ≠ "SNID" →
  LSST_Source_init mapper (pre ++ (key, col) :: post)
  = LSST_Source_init mapper (pre ++ post).
Proof.
  intros Hkey Hc Hs. unfold LSST_Source_init.
  rewrite !get_column_insert by done.
  destruct (get_column "ELASTICC_class" (pre ++ post)) as [colc|]; [simpl|reflexivity].
  destruct (item0 colc) as [c|]; [simpl|reflexivity].
  destruct (get_column "SNID" (pre ++ post)) as [cols|]; [simpl|reflexivity].
  destruct (item0 cols) as [s|]; [simpl|reflexivity].
  destruct (getattr _ _) as [c'|]; [simpl|reflexivity].
  rewrite (foldM_ext _ (set_feature (pre ++ post))).
  2:{ intros b k _. by apply set_feature_insert. }
  unfold columns. rewrite !fmap_app, fmap_cons, !foldM_app. simpl.
  destruct (foldM _ _ (pre.*1)) as [b|]; [simpl|reflexivity].
  by rewrite set_feature_unrecognized.
Qed.

End Construction.

(** ** The event table *)

Lemma getattr_Ok (self : LSST_Source) (name : string) (v : value) :
  getattr self name = Ok v ↔ self !! name = Some v.
Proof. unfold getattr. destruct (self !! name); split; intros H; by inversion H. Qed.

Lemma getattr_Raise (self : LSST_Source) (name : string) (e : exn) :
  getattr self name = Raise e → e = AttributeError ∧ self !! name = None.
Proof. unfold getattr. destruct (self !! name); intros H; by inversion H. Qed.

Lemma getattr_None (self : LSST_Source) (name : string) :
  self !! name = None → getattr self name = Raise AttributeError.
Proof. unfold getattr. by intros ->. Qed.

Lemma subscript_Raise (v : value) (i : nat) (e : exn) :
  subscript v i = Raise e → e = IndexError ∨ e = TypeError.
Proof.
  destruct v; simpl; try (intros H; inversion H; by right).
  unfold arr_getitem. destruct (_ !! _); intros H; inversion H. by left.
Qed.

Lemma arr_sub_Raise (a : ndarray) (v : value) (e : exn) :
  arr_sub a v = Raise e → e = TypeError.
Proof. destruct a, v; simpl; intros H; by inversion H. Qed.

Lemma py_sub_Raise (v w : value) (e : exn) : py_sub v w = Raise e → e = TypeError.
Proof.
  destruct v; simpl; try (intros H; by inversion H).
  destruct (arr_sub a w) eqn:Hs; simpl; intros H; inversion H; subst.
  by apply arr_sub_Raise in Hs.
Qed.


Lemma table_setitem_Raise (name : string) (v : value) (t : Table) (e : exn) :
  table_setitem name v t = Raise e → e = TypeError ∨ e = ValueError.
Proof.
  destruct v; simpl; try (intros H; inversion H; by left).
  unfold add_column. destruct (_ && _); intros H; inversion H. by right.
Qed.

Lemma arr_sub_len (a a' : ndarray) (v : value) :
  arr_sub a v = Ok a' → arr_len a' = arr_len a.
Proof.
  destruct a, v; simpl; intros H; inversion H; simpl; by rewrite length_fmap.
Qed.

Lemma broadcast_to_len (n : nat) (a : ndarray) :
  arr_len a = 1 → arr_len (broadcast_to n a) = n.
Proof.
  assert (∀ A (xs : list A), length xs = 1 → length (concat (replicate n xs)) = n) as Hc.
  { intros A xs Hxs. induction n as [|m IH]; simpl; [reflexivity|].
    rewrite length_app, IH, Hxs. reflexivity. }
  destruct a; simpl; apply Hc.
Qed.

Lemma fit_column_0 (a : ndarray) : fit_column 0 a = a.
Proof. unfold fit_column. by destruct (bool_decide (arr_len a = 1)). Qed.

Lemma fit_column_len (n : nat) (a : ndarray) :
  arr_len (fit_column n a) = n ↔ arr_len a = n ∨ (arr_len a = 1 ∧ 0 < n).
Proof.
  unfold fit_column. case_bool_decide as H1; simpl.
  - case_bool_decide as Hn; simpl.
    + rewrite broadcast_to_len by assumption. split; [intros _; by right | done].
    + split; [by left | intros [?|[_ ?]]; [assumption | lia]].
  - split; [by left | intros [?|[? _]]; done].
Qed.

Lemma table_setitem_Ok (name : string) (v : value) (t t' : Table) :
  table_setitem name v t = Ok t' →
  ∃ a, v = VArray a
     ∧ t' = {| table_columns := table_columns t ++ [(name, fit_column (table_len t) a)];
               table_meta := table_meta t |}
     ∧ (table_columns t ≠ [] → arr_len (fit_column (table_len t) a) = table_len t).
Proof.
  destruct v; simpl; try discriminate. unfold add_column.
  case_bool_decide as Hc; simpl.
  - case_bool_decide as Hl; simpl; [discriminate|].
    intros H; inversion H; subst. exists a. split_and!; try reflexivity.
    intros _. exact Hl.
  - intros H; inversion H; subst. exists a. split_and!; try reflexivity.
    intros Hne. destruct (table_columns t); [done | simpl in Hc; lia].
Qed.

(** The time-series half of [get_event_table] either builds the five
    columns, all of the length of MJD, or raises one of four exceptions:
    the assertion is not among them. *)
Lemma time_series_table_cases (self : LSST_Source) :
  (∃ mjd x0 time pf fc fe bd,
      self !! "MJD" = Some (VArray mjd) ∧ arr_getitem mjd 0 = Ok x0
      ∧ arr_sub mjd x0 = Ok time
      ∧ self !! "PHOTFLAG" = Some (VArray pf) ∧ self !! "FLUXCAL" = Some (VArray fc)
      ∧ self !! "FLUXCALERR" = Some (VArray fe) ∧ self !! "BAND" = Some (VArray bd)
      ∧ Forall (λ a, arr_len (fit_column (arr_len mjd) a) = arr_len mjd) [pf; fc; fe; bd]
      ∧ time_series_table self
        = Ok {| table_columns := event_columns time pf fc fe bd; table_meta := [] |})
  ∨ (∃ e, time_series_table self = Raise e
        ∧ e ∈ [AttributeError; IndexError; TypeError; ValueError]).
Proof.
  unfold time_series_table.
  destruct (getattr self "MJD") as [mjd|e] eqn:Hmjd; simpl;
    [|apply getattr_Raise in Hmjd as [-> _]; right; eexists; split; [done|set_solver]].
  destruct (subscript mjd 0) as [x0|e] eqn:Hx0; simpl;
    [|apply subscript_Raise in Hx0 as [-> | ->]; right; eexists; split; done || set_solver].
  destruct (py_sub mjd x0) as [time|e] eqn:Htime; simpl;
    [|apply py_sub_Raise in Htime as ->; right; eexists; split; [done|set_solver]].
  destruct mjd as [| | | |mjd]; try discriminate. simpl in Hx0, Htime.
  destruct (arr_sub mjd x0) as [time'|] eqn:Hsub; [|discriminate].
  simpl in Htime. inversion Htime; subst time; clear Htime.
  pose proof (arr_sub_len _ _ _ Hsub) as Hlen.
  assert (0 < arr_len mjd) as Hpos.
  { unfold arr_getitem in Hx0. destruct (arr_items mjd !! 0) eqn:Hi; [|discriminate].
    apply lookup_lt_Some in Hi. destruct mjd; simpl in *; by rewrite length_fmap in Hi. }
  destruct (getattr self "PHOTFLAG") as [pf|e] eqn:Hpf; simpl;
    [|apply getattr_Raise in Hpf as [-> _]; right; eexists; split; [done|set_solver]].
  destruct (table_setitem "photflag" pf _) as [t1|e] eqn:Ht1; simpl;
    [|apply table_setitem_Raise in Ht1 as [-> | ->]; right; eexists; split; done || set_solver].
  apply table_setitem_Ok in Ht1 as (apf & -> & -> & Hlpf).
  destruct (getattr self "FLUXCAL") as [fc|e] eqn:Hfc; simpl;
    [|apply getattr_Raise in Hfc as [-> _]; right; eexists; split; [done|set_solver]].
  destruct (table_setitem "flux" fc _) as [t2|e] eqn:Ht2; simpl;
    [|apply table_setitem_Raise in Ht2 as [-> | ->]; right; eexists; split; done || set_solver].
  apply table_setitem_Ok in Ht2 as (afc & -> & -> & Hlfc).
  destruct (getattr self "FLUXCALERR") as [fe|e] eqn:Hfe; simpl;
    [|apply getattr_Raise in Hfe as [-> _]; right; eexists; split; [done|set_solver]].
  destruct (table_setitem "fluxErr" fe _) as [t3|e] eqn:Ht3; simpl;
    [|apply table_setitem_Raise in Ht3 as [-> | ->]; right; eexists; split; done || set_solver].
  apply table_setitem_Ok in Ht3 as (afe & -> & -> & Hlfe).
  destruct (getattr self "BAND") as [bd|e] eqn:Hbd; simpl;
    [|apply getattr_Raise in Hbd as [-> _]; right; eexists; split; [done|set_solver]].
  destruct (table_setitem "passband" bd _) as [t4|e] eqn:Ht4; simpl;
    [|apply table_setitem_Raise in Ht4 as [-> | ->]; right; eexists; split; done || set_solver].
  apply table_setitem_Ok in Ht4 as (abd & -> & -> & Hlbd).
  unfold table_len in *. simpl in *. rewrite fit_column_0, Hlen in *.
  rewrite bool_decide_eq_true_2 by reflexivity.
  left. exists mjd, x0, time', apf, afc, afe, abd.
  apply getattr_Ok in Hmjd, Hpf, Hfc, Hfe, Hbd.
  split_and!; try done.
  - repeat constructor; [apply Hlpf | apply Hlfc | apply Hlfe | apply Hlbd]; done.
  - unfold event_columns. by rewrite Hlen.
Qed.

Lemma static_loop_missing (self : LSST_Source) (l : list string)
    (acc : list (string * value)) :
  Exists (λ k, self !! k = None) l →
  foldM (λ feature_static other_feature,
           v ← getattr self other_feature;
           Ok (odict_set other_feature v feature_static)) acc l
  = Raise AttributeError.
Proof.
  revert acc. induction l as [|k l IH]; intros acc H; [by inversion H|].
  simpl. destruct (self !! k) as [v|] eqn:Hk.
  - rewrite (proj2 (getattr_Ok self k v) Hk). simpl.
    apply IH. apply Exists_cons in H as [H|H]; [congruence | assumption].
  - by rewrite (getattr_None self k Hk).
Qed.

Lemma static_loop_Ok (self : LSST_Source) (l : list string)
    (acc : list (string * value)) :
  Forall (λ k, is_Some (self !! k)) l →
  ∃ fs, foldM (λ feature_static other_feature,
                 v ← getattr self other_feature;
                 Ok (odict_set other_feature v feature_static)) acc l
        = Ok fs.
Proof.
  revert acc. induction l as [|k l IH]; intros acc H; simpl; [eauto|].
  apply Forall_cons_1 in H as [[v Hv] H].
  rewrite (proj2 (getattr_Ok self k v) Hv). simpl. by apply IH.
Qed.

Lemma static_features_missing (self : LSST_Source) (f : string) :
  f ∈ other_features → self !! f = None → static_features self = Raise AttributeError.
Proof.
  intros Hf Hnone. apply static_loop_missing, list.Exists_exists.
  exists f. split; assumption.
Qed.

Lemma static_features_Ok (self : LSST_Source) :
  Forall (λ k, is_Some (self !! k)) other_features →
  ∃ fs, static_features self = Ok fs.
Proof. apply static_loop_Ok. Qed.

(** What a table that [get_event_table] returns looks like. *)
Lemma get_event_table_Ok (self : LSST_Source) (t : Table) :
  get_event_table self = Ok t →
  ∃ mjd x0 time pf fc fe bd fs,
    self !! "MJD" = Some (VArray mjd) ∧ arr_getitem mjd 0 = Ok x0
    ∧ arr_sub mjd x0 = Ok time
    ∧ self !! "PHOTFLAG" = Some (VArray pf) ∧ self !! "FLUXCAL" = Some (VArray fc)
    ∧ self !! "FLUXCALERR" = Some (VArray fe) ∧ self !! "BAND" = Some (VArray bd)
    ∧ Forall (λ a, arr_len (fit_column (arr_len mjd) a) = arr_len mjd) [pf; fc; fe; bd]
    ∧ static_features self = Ok fs
    ∧ t = {| table_columns := event_columns time pf fc fe bd; table_meta := fs |}.
Proof.
  unfold get_event_table. intros H.
  destruct (time_series_table_cases self)
    as [(mjd & x0 & time & pf & fc & fe & bd & H1 & H2 & H3 & H4 & H5 & H6 & H7 & H8 & Ht)
       |(e & Ht & _)]; rewrite Ht in H; simpl in H; [|discriminate].
  destruct (static_features self) as [fs|] eqn:Hfs; simpl in H; [|discriminate].
  inversion H; subst; simpl.
  exists mjd, x0, time, pf, fc, fe, bd, fs. split_and!; done.
Qed.

Lemma table_len_event_columns (time pf fc fe bd : ndarray) (fs : list (string * value)) :
  table_len {| table_columns := event_columns time pf fc fe bd; table_meta := fs |}
  = arr_len time.
Proof. reflexivity. Qed.

(** With a static feature missing the export fails, whatever the time
    series. *)
Lemma get_event_table_missing_static (self : LSST_Source) (f : string) :
  f ∈ other_features → self !! f = None →
  match time_series_table self with
  | Ok _ => get_event_table self = Raise AttributeError
  | Raise e => get_event_table self = Raise e
  end.
Proof.
  intros Hf Hnone. unfold get_event_table.
  destruct (time_series_table self) as [t|e]; simpl; [|reflexivity].
  by rewrite (static_features_missing self f).
Qed.

(** ** Times *)

Lemma f64_sub_diag (x : float64) :
  f64_sub x x = match x with
                | S754_zero _ | S754_finite _ _ _ => S754_zero false
                | _ => S754_nan
                end.
Proof.
  destruct x as [[]|[]| |s m e]; try reflexivity.
  assert (∀ a, IntDef.Z.sub a a = 0%Z) as Hd by (intros; apply Z.sub_diag).
  unfold f64_sub, SFsub. cbv zeta. unfold shl_align. rewrite !Hd. reflexivity.
Qed.

Lemma wrap64_diag (x : Z) : wrap64 (x - x) = 0%Z.
Proof. by rewrite Z.sub_diag. Qed.

Lemma since_first_sub (mjd time : ndarray) (x0 : value) :
  arr_getitem mjd 0 = Ok x0 → arr_sub mjd x0 = Ok time → since_first mjd = Some time.
Proof.
  unfold arr_getitem.
  destruct mjd as [[|x xs]|[|x xs]|[|x xs]]; simpl; intros H0 Hsub;
    inversion H0; subst x0; simpl in Hsub; by inversion Hsub.
Qed.

Lemma since_first_minimum (mjd : ndarray) :
  arr_min mjd = arr_items mjd !! 0 → since_minimum mjd = since_first mjd.
Proof.
  destruct mjd as [[|x xs]|[|x xs]|[|x xs]]; try reflexivity; intros H; simpl in H.
  - assert (foldr f64_min x xs = x) as Hmin by congruence.
    unfold since_minimum, since_first. cbv zeta. by rewrite !Hmin.
  - assert (foldr Z.min x xs = x) as Hmin by congruence.
    unfold since_minimum, since_first. cbv zeta. by rewrite !Hmin.
Qed.

Lemma since_first_head (mjd time : ndarray) (x0 : value) :
  since_first mjd = Some time → arr_items mjd !! 0 = Some x0 →
  ∃ z, arr_items time !! 0 = Some z
     ∧ (finite x0 = true → is_zero z = true)
     ∧ (finite x0 = false → is_nan z = true).
Proof.
  destruct mjd as [[|x xs]|[|x xs]|[|x xs]]; simpl; try discriminate;
    intros Ht H0; inversion Ht; subst time; inversion H0; subst x0; simpl.
  - exists (VFloat (f64_sub x x)). rewrite f64_sub_diag.
    split_and!; [reflexivity | |]; by destruct x.
  - exists (VInt (wrap64 (x - x))). rewrite wrap64_diag. by split_and!.
Qed.

Lemma since_first_len (mjd time : ndarray) :
  since_first mjd = Some time → arr_len time = arr_len mjd.
Proof.
  destruct mjd as [[|x xs]|[|x xs]|[|x xs]]; simpl; try discriminate;
    intros Ht; inversion Ht; simpl; by rewrite length_fmap.
Qed.

Lemma stored_by_spec_recognized (mapper : value → value) (row : DataFrame)
    (name : string) :
  recognized name = true → stored_by_spec mapper row name = cell row name.
Proof.
  intros Hrec. unfold stored_by_spec.
  destruct (decide (name = "ELASTICC_class")) as [->|?]; [reflexivity|].
  destruct (decide (name = "SNID")) as [->|?]; [reflexivity|].
  destruct (decide (name = "astrophysical_class")) as [->|?]; [by vm_compute in Hrec|].
  by rewrite Hrec.
Qed.


(** The sample records and tables are those the code computes. *)
Lemma source_of_Ok (row : DataFrame) :
  is_Ok (LSST_Source_init sample_taxonomy row) = true →
  LSST_Source_init sample_taxonomy row = Ok (source_of row).
Proof. unfold source_of. by destruct (LSST_Source_init sample_taxonomy row). Qed.

Lemma table_of_Ok (self : LSST_Source) :
  is_Ok (get_event_table self) = true → get_event_table self = Ok (table_of self).
Proof. unfold table_of. by destruct (get_event_table self). Qed.

Lemma is_Ok_false_Raise {A} (m : result A) (e : exn) :
  (match m with Ok _ => None | Raise e' => Some e' end) = Some e → m = Raise e.
Proof. destruct m; intros H; by inversion H. Qed.

(** * The claims *)

(** C5: construction stores the identity and the fine-grained class,
    the derived coarse class, every present column of the static set
    and every present column of the time-series set, the latter as a
    sequence, and nothing else; a column of neither set is not stored
    and the record is the one built without it, so that it causes no
    error either. *)
Theorem construction_stores_recognized_columns (mapper : value → value)
    (row : DataFrame) :
  constructible row = true →
  ∃ r, LSST_Source_init mapper row = Ok r
     ∧ (∀ name, r !! name = stored_by_spec mapper row name)
     ∧ (∀ name, name ∈ time_series_features → name ∈ columns row →
                ∃ a, r !! name = Some (VArray a))
     ∧ (∀ pre post key col,
          row = pre ++ (key, col) :: post → recognized key = false →
          key ≠ "ELASTICC_class" → key ≠ "SNID" →
          (key ≠ "astrophysical_class" → r !! key = None)
          ∧ LSST_Source_init mapper (pre ++ post) = Ok r).
Proof.
  intros Hrow. destruct (init_Ok mapper row Hrow) as [r Hr].
  pose proof (init_stores mapper row r Hr) as Hstored.
  exists r. split_and!; [assumption | assumption | |].
  - intros name Hts Hcol. rewrite Hstored.
    assert (recognized name = true) as Hrec.
    { unfold recognized. rewrite (bool_decide_eq_true_2 _ Hts). apply orb_true_r. }
    rewrite stored_by_spec_recognized by assumption.
    unfold constructible in Hrow. apply andb_prop in Hrow as [_ Hloop].
    rewrite forallb_forall in Hloop. apply list_elem_of_In, Hloop in Hcol.
    rewrite (bool_decide_eq_true_2 _ Hts), (time_series_not_static _ Hts) in Hcol.
    destruct (cell row name) as [[| | | |a]|]; try discriminate. eauto.
  - intros pre post key col -> Hkey Hc Hs. split.
    + intros Ha. rewrite Hstored. unfold stored_by_spec.
      rewrite !decide_False by assumption. by rewrite Hkey.
    + by rewrite <- (init_insert_unrecognized mapper pre post key col).
Qed.

Lemma construction_stores_recognized_columns_witness :
  constructible sorted_row = true
  ∧ ∃ r, LSST_Source_init sample_taxonomy sorted_row = Ok r
       ∧ r !! "NOBS" = None
       ∧ r !! "astrophysical_class" = Some (VStr "Ia")
       ∧ r !! "BAND" = Some (VArray (Str ["g"; "r"; "g"])).
Proof.
  split; [vm_compute; reflexivity|].
  destruct (construction_stores_recognized_columns sample_taxonomy sorted_row)
    as (r & Hr & Hstored & _); [vm_compute; reflexivity|].
  exists r. split_and!; [assumption | rewrite Hstored; vm_compute; reflexivity ..].
Defined.



(** C2, as the specification words it, fails: with the later observation
    stored first, the record of [unsorted_row] has the times 5 and 3; the
    'time' column is 0 and -2, the differences from the first stored
    time, and not 2 and 0, the differences from the minimum: the entry of
    the earliest observation is -2. *)
Lemma time_column_not_since_minimum :
  LSST_Source_init sample_taxonomy unsorted_row = Ok (source_of unsorted_row)
  ∧ source_of unsorted_row !! "MJD" = Some (VArray (Float64 [q 5; q 3]))
  ∧ get_event_table (source_of unsorted_row) = Ok (table_of (source_of unsorted_row))
  ∧ table_column "time" (table_of (source_of unsorted_row)) = Some (Float64 [q 0; q (-2)])
  ∧ since_minimum (Float64 [q 5; q 3]) = Some (Float64 [q 2; q 0])
  ∧ table_column "time" (table_of (source_of unsorted_row))
    ≠ since_minimum (Float64 [q 5; q 3]).
Proof.
  split_and!.
  - apply source_of_Ok. vm_compute. reflexivity.
  - vm_compute. reflexivity.
  - apply table_of_Ok. vm_compute. reflexivity.
  - vm_compute. reflexivity.
  - vm_compute. reflexivity.
  - vm_compute. discriminate.
Qed.

(** C2, amended: the 'time' column of a table holds each observation
    time minus the first stored time, [MJD[0]], in the arithmetic of the
    times (float64 or int64), one entry for each observation.  Its first
    entry is zero when the first stored time is a number, and NaN when
    it is an infinity or NaN.  The column holds the differences from the
    minimum observed time when the first stored time is the minimum. *)
Theorem time_column_since_first (self : LSST_Source) (t : Table) (mjd : ndarray) :
  get_event_table self = Ok t →
  self !! "MJD" = Some (VArray mjd) →
  ∃ x0 time,
    arr_items mjd !! 0 = Some x0
    ∧ table_column "time" t = Some time
    ∧ since_first mjd = Some time
    ∧ arr_len time = arr_len mjd
    ∧ (∃ z, arr_items time !! 0 = Some z
          ∧ (finite x0 = true → is_zero z = true)
          ∧ (finite x0 = false → is_nan z = true))
    ∧ (arr_min mjd = Some x0 → since_minimum mjd = Some time).
Proof.
  intros Ht Hmjd. apply get_event_table_Ok in Ht
    as (mjd' & x0 & time & pf & fc & fe & bd & fs & Hmjd' & Hx0 & Hsub & _ & _ & _ & _ & _
        & _ & ->).
  rewrite Hmjd in Hmjd'. inversion Hmjd'; subst mjd'; clear Hmjd'.
  pose proof (since_first_sub _ _ _ Hx0 Hsub) as Hfirst.
  assert (arr_items mjd !! 0 = Some x0) as H0.
  { unfold arr_getitem in Hx0. destruct (arr_items mjd !! 0); by inversion Hx0. }
  exists x0, time. split_and!.
  - exact H0.
  - reflexivity.
  - exact Hfirst.
  - by apply since_first_len.
  - by eapply since_first_head.
  - intros Hmin. rewrite since_first_minimum; [exact Hfirst | congruence].
Qed.

Lemma time_column_since_first_witness :
  get_event_table (source_of sorted_row) = Ok (table_of (source_of sorted_row))
  ∧ source_of sorted_row !! "MJD" = Some (VArray (Float64 [q 1; q 2; q 4]))
  ∧ table_column "time" (table_of (source_of sorted_row))
    = Some (Float64 [q 0; q 1; q 3])
  ∧ since_minimum (Float64 [q 1; q 2; q 4]) = Some (Float64 [q 0; q 1; q 3]).
Proof.
  assert (get_event_table (source_of sorted_row) = Ok (table_of (source_of sorted_row)))
    as Ht by (apply table_of_Ok; vm_compute; reflexivity).
  assert (source_of sorted_row !! "MJD" = Some (VArray (Float64 [q 1; q 2; q 4])))
    as Hmjd by (vm_compute; reflexivity).
  destruct (time_column_since_first _ _ _ Ht Hmjd)
    as (x0 & time & H0 & Htime & Hfirst & _ & _ & Hmin).
  assert (arr_items (Float64 [q 1; q 2; q 4]) !! 0 = Some (VFloat (q 1))) as E0
    by reflexivity.
  assert (x0 = VFloat (q 1)) as -> by congruence.
  assert (time = Float64 [q 0; q 1; q 3]) as ->.
  { assert (since_first (Float64 [q 1; q 2; q 4]) = Some (Float64 [q 0; q 1; q 3])) as E
      by (vm_compute; reflexivity).
    congruence. }
  split_and!; [exact Ht | exact Hmjd | exact Htime |].
  apply Hmin. vm_compute. reflexivity.
Defined.

(** C3: whatever the record, [get_event_table] raises an attribute, an
    index, a type or a value error when it fails, never the assertion
    error: the table has the length of its first column, which was
    computed from MJD, so that the check after the five assignments
    cannot fail; a time series of another length is refused or
    broadcast by the table before. *)
Theorem event_table_never_raises_assertion (self : LSST_Source) (e : exn) :
  get_event_table self = Raise e →
  e ∈ [AttributeError; IndexError; TypeError; ValueError].
Proof.
  intros H. unfold get_event_table in H.
  destruct (time_series_table_cases self)
    as [(mjd & x0 & time & pf & fc & fe & bd & _ & _ & _ & _ & _ & _ & _ & _ & Ht)
       |(e' & Ht & He)]; rewrite Ht in H; simpl in H.
  - destruct (static_features self) as [fs|e'] eqn:Hfs; simpl in H; [discriminate|].
    inversion H; subst e'.
    destruct (decide (Forall (λ k, is_Some (self !! k)) other_features)) as [Hall|Hex].
    + apply static_features_Ok in Hall as [fs Hfs']. congruence.
    + apply not_Forall_Exists in Hex; [|apply _].
      apply list.Exists_exists in Hex as (f & Hf & Hnone).
      rewrite (static_features_missing self f) in Hfs; [|assumption|].
      * inversion Hfs. left.
      * by apply eq_None_not_Some.
  - inversion H; subst e'. exact He.
Qed.

Lemma event_table_never_raises_assertion_witness :
  LSST_Source_init sample_taxonomy short_band_row = Ok (source_of short_band_row)
  ∧ source_of short_band_row !! "MJD" = Some (VArray (Float64 [q 1; q 2; q 4]))
  ∧ source_of short_band_row !! "BAND" = Some (VArray (Str ["g"; "r"]))
  ∧ get_event_table (source_of short_band_row) = Raise ValueError
  ∧ ValueError ∈ [AttributeError; IndexError; TypeError; ValueError].
Proof.
  assert (get_event_table (source_of short_band_row) = Raise ValueError)
    as H by (vm_compute; reflexivity).
  split_and!; [apply source_of_Ok; vm_compute; reflexivity | vm_compute; reflexivity
              | vm_compute; reflexivity | exact H |].
  exact (event_table_never_raises_assertion _ _ H).
Defined.

(** A time series with a single entry is broadcast: the record of
    [single_band_row] has three observations and one passband, and its
    table is returned with the passband repeated. *)
Lemma single_entry_is_broadcast :
  LSST_Source_init sample_taxonomy single_band_row = Ok (source_of single_band_row)
  ∧ source_of single_band_row !! "MJD" = Some (VArray (Float64 [q 1; q 2; q 4]))
  ∧ source_of single_band_row !! "BAND" = Some (VArray (Str ["g"]))
  ∧ get_event_table (source_of single_band_row) = Ok (table_of (source_of single_band_row))
  ∧ table_len (table_of (source_of single_band_row)) = 3
  ∧ table_column "passband" (table_of (source_of single_band_row))
    = Some (Str ["g"; "g"; "g"]).
Proof.
  split_and!; [apply source_of_Ok | | | apply table_of_Ok | |]; vm_compute; reflexivity.
Qed.

(** When a table is returned, its row count is the length of MJD. *)
Lemma event_table_row_count (self : LSST_Source) (t : Table) (mjd : ndarray) :
  get_event_table self = Ok t → self !! "MJD" = Some (VArray mjd) →
  table_len t = arr_len mjd.
Proof.
  intros Ht Hmjd. apply get_event_table_Ok in Ht
    as (mjd' & x0 & time & pf & fc & fe & bd & fs & Hmjd' & _ & Hsub & _ & _ & _ & _ & _
        & _ & ->).
  rewrite Hmjd in Hmjd'. inversion Hmjd'; subst mjd'.
  rewrite table_len_event_columns. by eapply arr_sub_len.
Qed.

(** A record with the five time series of one positive length, float
    times and all static features has a table. *)
Lemma event_table_Ok_sample :
  LSST_Source_init sample_taxonomy sorted_row = Ok (source_of sorted_row)
  ∧ get_event_table (source_of sorted_row) = Ok (table_of (source_of sorted_row))
  ∧ table_len (table_of (source_of sorted_row)) = 3.
Proof.
  split_and!; [apply source_of_Ok | apply table_of_Ok |]; vm_compute; reflexivity.
Qed.

(** C9, as stated, fails: the record of [no_observation_row] lacks the
    static column RA and has no observation; the export fails on
    [MJD[0]] with an index error before the static features are read. *)
Lemma missing_static_is_not_always_attribute_error :
  LSST_Source_init sample_taxonomy no_observation_row = Ok (source_of no_observation_row)
  ∧ "RA" ∈ other_features
  ∧ ("RA" ∉ columns no_observation_row)
  ∧ get_event_table (source_of no_observation_row) = Raise IndexError
  ∧ get_event_table (source_of no_observation_row) ≠ Raise AttributeError.
Proof.
  split_and!.
  - apply source_of_Ok. vm_compute. reflexivity.
  - left.
  - apply (bool_decide_unpack _). vm_compute. exact I.
  - vm_compute. reflexivity.
  - vm_compute. discriminate.
Qed.

(** C9, amended: a record built from a row without one of the
    recognized static columns has no table: [get_event_table] fails,
    with an attribute error when the time-series half completes, and
    with the error of that half otherwise. *)
Theorem missing_static_column_fails_export (mapper : value → value)
    (row : DataFrame) (r : LSST_Source) (f : string) :
  LSST_Source_init mapper row = Ok r →
  f ∈ other_features → f ∉ columns row →
  r !! f = None
  ∧ (∃ e, get_event_table r = Raise e)
  ∧ (∀ t, time_series_table r = Ok t → get_event_table r = Raise AttributeError)
  ∧ (∀ e, time_series_table r = Raise e → get_event_table r = Raise e).
Proof.
  intros Hr Hf Hcol.
  assert (r !! f = None) as Hnone.
  { rewrite (init_stores mapper row r Hr), stored_by_spec_recognized.
    - by apply cell_not_elem.
    - unfold recognized. by rewrite (bool_decide_eq_true_2 _ Hf). }
  pose proof (get_event_table_missing_static r f Hf Hnone) as H.
  split_and!; [assumption | | |].
  - destruct (time_series_table r); eauto.
  - intros t Ht. by rewrite Ht in H.
  - intros e He. by rewrite He in H.
Qed.

Lemma missing_static_column_fails_export_witness :
  LSST_Source_init sample_taxonomy no_ra_row = Ok (source_of no_ra_row)
  ∧ "RA" ∈ other_features
  ∧ ("RA" ∉ columns no_ra_row)
  ∧ is_Ok (time_series_table (source_of no_ra_row)) = true
  ∧ get_event_table (source_of no_ra_row) = Raise AttributeError.
Proof.
  assert (LSST_Source_init sample_taxonomy no_ra_row = Ok (source_of no_ra_row))
    as Hr by (apply source_of_Ok; vm_compute; reflexivity).
  assert ("RA" ∈ other_features) as Hf by left.
  assert ("RA" ∉ columns no_ra_row) as Hcol
    by (apply (bool_decide_unpack _); vm_compute; exact I).
  destruct (missing_static_column_fails_export _ _ _ _ Hr Hf Hcol) as (_ & _ & Hattr & _).
  split_and!; [exact Hr | exact Hf | exact Hcol | vm_compute; reflexivity |].
  assert (is_Ok (time_series_table (source_of no_ra_row)) = true) as Hok
    by (vm_compute; reflexivity).
  destruct (time_series_table (source_of no_ra_row)) as [t|e] eqn:Ht.
  - by apply (Hattr t).
  - discriminate Hok.
Defined.

(** ** The data set *)

Lemma df_getitem_in_range (df : DataFrame) (i : nat) :
  i < height df → df_getitem df (Z.of_nat i) = Ok (df_slice i 1 df).
Proof.
  intros Hi. unfold df_getitem.
  rewrite !bool_decide_eq_false_2 by lia. simpl. by rewrite Nat2Z.id.
Qed.

Lemma df_getitem_end (df : DataFrame) :
  df_getitem df (Z.of_nat (height df)) = Raise IndexError.
Proof. unfold df_getitem. by rewrite bool_decide_eq_true_2 by lia. Qed.

Lemma df_getitem_legacy_end (df : DataFrame) :
  df_getitem_legacy df (Z.of_nat (height df)) = df_slice (height df) 0 df.
Proof.
  unfold df_getitem_legacy, clamp. rewrite bool_decide_eq_false_2 by lia.
  f_equal; lia.
Qed.

Lemma cell_slice (df : DataFrame) (key : string) (s : Series) (i : nat) :
  get_column key df = Ok s → cell (df_slice i 1 df) key = s !! i.
Proof.
  intros Hs. unfold cell. rewrite get_column_slice, Hs. simpl.
  replace (s !! i) with (drop i s !! 0) by (rewrite lookup_drop; f_equal; lia).
  by destruct (drop i s).
Qed.

Lemma fresh_loc (h : heap) : h !! fresh (dom h) = None.
Proof. apply not_elem_of_dom, is_fresh. Qed.

(** The loop of [get_labels] from row [k] on. *)
Lemma get_labels_loop (mapper : value → value) (labels : Series) (n k : nat)
    (acc : list value) :
  k + n ≤ length labels →
  foldM (λ astrophysical_labels idx,
           elasticc_class ← series_getitem labels idx;
           Ok (astrophysical_labels ++ [mapper elasticc_class]))
        acc (seq k n)
  = Ok (acc ++ (mapper <$> take n (drop k labels))).
Proof.
  revert k acc. induction n as [|n IH]; intros k acc Hk; simpl.
  - by rewrite app_nil_r.
  - destruct (lookup_lt_is_Some_2 labels k) as [c Hc]; [lia|].
    assert (series_getitem labels k = Ok c) as -> by (unfold series_getitem; by rewrite Hc).
    simpl. rewrite IH by lia. rewrite (drop_S _ _ _ Hc). simpl.
    by rewrite <- app_assoc.
Qed.

Lemma wf_df_column_length (df : DataFrame) (key : string) (s : Series) :
  wf_df df → get_column key df = Ok s → length s = height df.
Proof.
  intros [_ Hlen] Hs. apply get_column_Ok_elem in Hs.
  rewrite list.Forall_forall in Hlen. exact (Hlen _ Hs).
Qed.

Lemma get_labels_maps_class_column_aux (mapper : value → value) (p : string)
    (df : DataFrame) (labels : Series) :
  wf_df df →
  get_column "ELASTICC_class" df = Ok labels →
  get_labels mapper (loaded p df) = Ok (mapper <$> labels)
  ∧ length labels = height df.
Proof.
  intros Hwf Hlabels. pose proof (wf_df_column_length _ _ _ Hwf Hlabels) as Hlen.
  split; [|exact Hlen].
  unfold get_labels. simpl. rewrite Hlabels. simpl.
  rewrite get_labels_loop by (simpl; lia). simpl.
  by rewrite drop_0, <- Hlen, firstn_all.
Qed.

(** C6: indexed access one past the end raises the index error, with
    the bounds check of polars and also with the slice of its older
    releases, empty there, whose first cell the construction asks for;
    no record is returned.  An index below the row count selects the
    row of that index, and the record built from it is returned: the
    access succeeds on every row that meets the input constraints of
    construction. *)
Theorem indexed_access_bounds (mapper : value → value) (p : string) (df : DataFrame) :
  getitem mapper (loaded p df) (Z.of_nat (len (loaded p df))) = Raise IndexError
  ∧ ("ELASTICC_class" ∈ columns df →
     getitem_legacy mapper (loaded p df) (Z.of_nat (len (loaded p df))) = Raise IndexError)
  ∧ (∀ i, i < len (loaded p df) →
       getitem mapper (loaded p df) (Z.of_nat i) = LSST_Source_init mapper (df_slice i 1 df)
       ∧ (∀ key s, get_column key df = Ok s → cell (df_slice i 1 df) key = s !! i)
       ∧ (constructible (df_slice i 1 df) = true →
          ∃ r, getitem mapper (loaded p df) (Z.of_nat i) = Ok r
             ∧ ∀ name, r !! name = stored_by_spec mapper (df_slice i 1 df) name)).
Proof.
  unfold getitem, getitem_legacy, len. simpl. split_and!.
  - by rewrite df_getitem_end.
  - intros Hc. rewrite df_getitem_legacy_end. unfold LSST_Source_init.
    rewrite (get_column_slice "ELASTICC_class"). destruct (get_column_elem _ _ Hc) as [s ->].
    reflexivity.
  - intros i Hi. rewrite df_getitem_in_range by assumption. simpl.
    assert (∀ m : result LSST_Source, (m ≫= λ source, Ok source) = m) as Hid
      by (by intros [?|?]).
    rewrite Hid. split_and!; [reflexivity | intros key s; apply cell_slice |].
    intros Hrow. destruct (init_Ok mapper _ Hrow) as [r Hr].
    exists r. split; [assumption | by apply init_stores].
Qed.

Lemma indexed_access_bounds_witness :
  getitem sample_taxonomy (dataset_of two_sources) 2 = Raise IndexError
  ∧ getitem_legacy sample_taxonomy (dataset_of two_sources) 2 = Raise IndexError
  ∧ ∃ r, getitem sample_taxonomy (dataset_of two_sources) 1 = Ok r
       ∧ r !! "SNID" = Some (VInt 2)
       ∧ r !! "BAND" = Some (VArray (Str ["u"; "g"; "r"])).
Proof.
  destruct (indexed_access_bounds sample_taxonomy "elasticc.parquet" two_sources)
    as (Hend & Hlegacy & Hin).
  split_and!; [exact Hend | apply Hlegacy; right; left |].
  destruct (Hin 1) as (_ & _ & Hrow); [simpl; lia|].
  destruct Hrow as (r & Hr & Hstored); [vm_compute; reflexivity|].
  exists r. split_and!; [exact Hr | rewrite Hstored; vm_compute; reflexivity ..].
Defined.

(** C8: two accesses at one valid index build two records, two distinct
    objects, with the same attributes, those of the construction from
    the row of that index; the objects that existed before are left as
    they were. *)
Theorem repeated_access_same_attributes (mapper : value → value) (p : string)
    (df : DataFrame) (i : nat) (h : heap) :
  i < len (loaded p df) →
  constructible (df_slice i 1 df) = true →
  ∃ l1 l2 h1 h2 r1 r2,
    getitem_ref mapper (loaded p df) (Z.of_nat i) h = (Ok l1, h1)
    ∧ getitem_ref mapper (loaded p df) (Z.of_nat i) h1 = (Ok l2, h2)
    ∧ l1 ≠ l2
    ∧ h2 !! l1 = Some r1 ∧ h2 !! l2 = Some r2
    ∧ (∀ name, r1 !! name = r2 !! name)
    ∧ LSST_Source_init mapper (df_slice i 1 df) = Ok r1
    ∧ LSST_Source_init mapper (df_slice i 1 df) = Ok r2
    ∧ (∀ l o, h !! l = Some o → h2 !! l = Some o).
Proof.
  intros Hi Hrow. destruct (init_Ok mapper _ Hrow) as [r Hr].
  assert (getitem mapper (loaded p df) (Z.of_nat i) = Ok r) as Hget.
  { unfold getitem. simpl. rewrite df_getitem_in_range by exact Hi. simpl.
    by rewrite Hr. }
  unfold getitem_ref. rewrite Hget. simpl.
  set (l1 := fresh (dom h)). set (h1 := <[l1 := r]> h).
  set (l2 := fresh (dom h1)).
  assert (l1 ≠ l2) as Hne.
  { intros Heq. pose proof (fresh_loc h1) as Hfresh. fold l2 in Hfresh.
    rewrite <- Heq in Hfresh. unfold h1 in Hfresh.
    by rewrite lookup_insert_eq in Hfresh. }
  exists l1, l2, h1, (<[l2 := r]> h1), r, r. split_and!; try done.
  - rewrite lookup_insert_ne by done. apply lookup_insert_eq.
  - apply lookup_insert_eq.
  - intros l o Hl.
    assert (l1 ≠ l) as Hl1.
    { intros <-. pose proof (fresh_loc h) as Hfresh. fold l1 in Hfresh. congruence. }
    assert (l2 ≠ l) as Hl2.
    { intros <-. pose proof (fresh_loc h1) as Hfresh. fold l2 in Hfresh.
      unfold h1 in Hfresh. rewrite lookup_insert_ne in Hfresh by exact Hne. congruence. }
    rewrite lookup_insert_ne by exact Hl2. unfold h1.
    rewrite lookup_insert_ne by exact Hl1. exact Hl.
Qed.

Lemma repeated_access_same_attributes_witness :
  1 < len (dataset_of two_sources)
  ∧ constructible (df_slice 1 1 two_sources) = true
  ∧ ∃ l1 l2 h1 h2,
      getitem_ref sample_taxonomy (dataset_of two_sources) 1 ∅ = (Ok l1, h1)
      ∧ getitem_ref sample_taxonomy (dataset_of two_sources) 1 h1 = (Ok l2, h2)
      ∧ l1 ≠ l2 ∧ is_Some (h2 !! l1) ∧ h2 !! l1 = h2 !! l2.
Proof.
  assert (1 < len (dataset_of two_sources)) as Hi by (simpl; lia).
  assert (constructible (df_slice 1 1 two_sources) = true) as Hrow
    by (vm_compute; reflexivity).
  split_and!; [exact Hi | exact Hrow |].
  destruct (repeated_access_same_attributes sample_taxonomy "elasticc.parquet"
              two_sources 1 ∅ Hi Hrow)
    as (l1 & l2 & h1 & h2 & r1 & r2 & H1 & H2 & Hne & Hl1 & Hl2 & _ & Hr1 & Hr2 & _).
  exists l1, l2, h1, h2. split_and!; [exact H1 | exact H2 | exact Hne | by eexists |].
  rewrite Hl1, Hl2. congruence.
Defined.

(** C4: on a table with a fine-grained class column, [get_labels]
    returns the taxonomy mapper applied to that column, entry by entry
    and in its order: one label for each row. *)
Theorem get_labels_maps_class_column (mapper : value → value) (p : string)
    (df : DataFrame) (labels : Series) :
  wf_df df →
  get_column "ELASTICC_class" df = Ok labels →
  get_labels mapper (loaded p df) = Ok (mapper <$> labels)
  ∧ length (mapper <$> labels) = len (loaded p df)
  ∧ (∀ i c, labels !! i = Some c → (mapper <$> labels) !! i = Some (mapper c)).
Proof.
  intros Hwf Hlabels. pose proof (wf_df_column_length _ _ _ Hwf Hlabels) as Hlen.
  unfold get_labels, len. simpl. rewrite Hlabels. simpl. split_and!.
  - rewrite get_labels_loop by (simpl; lia). simpl.
    by rewrite drop_0, <- Hlen, firstn_all.
  - by rewrite length_fmap.
  - intros i c Hc. by rewrite list_lookup_fmap, Hc.
Qed.

Lemma get_labels_maps_class_column_witness :
  wf_df three_rows
  ∧ get_column "ELASTICC_class" three_rows = Ok [VStr "SNIa"; VStr "SNII"; VStr "SNIa"]
  ∧ get_labels sample_taxonomy (dataset_of three_rows)
    = Ok [VStr "Ia"; VStr "CC"; VStr "Ia"]
  ∧ len (dataset_of three_rows) = 3.
Proof.
  assert (wf_df three_rows) as Hwf by (apply (bool_decide_unpack _); vm_compute; exact I).
  split_and!; [exact Hwf | reflexivity | | reflexivity].
  destruct (get_labels_maps_class_column sample_taxonomy "elasticc.parquet" three_rows
              [VStr "SNIa"; VStr "SNII"; VStr "SNIa"] Hwf eq_refl) as (H & _).
  exact H.
Defined.

(** C1: [get_dimensions] returns on no data set.  When the access at
    index 0 returns a record, unpacking it into four names raises a type
    error, as the class makes its instances neither iterable nor
    indexable; when the access fails, so does [get_dimensions], with
    the same error. *)
Theorem get_dimensions_never_completes (mapper : value → value)
    (self : LSSTSourceDataSet) :
  (∃ e, get_dimensions mapper self = Raise e)
  ∧ (∀ source, getitem mapper self 0 = Ok source →
               get_dimensions mapper self = Raise TypeError)
  ∧ (∀ e, getitem mapper self 0 = Raise e → get_dimensions mapper self = Raise e).
Proof.
  unfold get_dimensions.
  destruct (getitem mapper self 0) as [source|e]; simpl; split_and!.
  - eauto.
  - reflexivity.
  - discriminate.
  - eauto.
  - discriminate.
  - intros e' H. by inversion H.
Qed.

Lemma get_dimensions_never_completes_witness :
  is_Ok (getitem sample_taxonomy (dataset_of two_sources) 0) = true
  ∧ get_dimensions sample_taxonomy (dataset_of two_sources) = Raise TypeError.
Proof.
  split; [vm_compute; reflexivity|].
  destruct (get_dimensions_never_completes sample_taxonomy (dataset_of two_sources))
    as (_ & Hok & _).
  assert (is_Ok (getitem sample_taxonomy (dataset_of two_sources) 0) = true) as Hsome
    by (vm_compute; reflexivity).
  destruct (getitem sample_taxonomy (dataset_of two_sources) 0) as [source|e] eqn:Hget.
  - by apply (Hok source).
  - discriminate Hsome.
Defined.

(** ** Plotting *)


Lemma colors_getitem_known (b : string) :
  b ∈ passbands → ∃ c, colors_getitem (VStr b) = Ok c.
Proof.
  intros H. unfold passbands in H.
  repeat (apply elem_of_cons in H as [->|H]; [by eexists|]).
  by apply elem_of_nil in H.
Qed.




Lemma arr_items_length (a : ndarray) : length (arr_items a) = arr_len a.
Proof. destruct a; simpl; by rewrite length_fmap. Qed.

(** The colours of the observations are found when every passband is
    one of the six. *)
Lemma color_lookup_Ok (bands : list value) :
  Forall (λ b, b ∈ VStr <$> passbands) bands →
  ∃ c, comprehension colors_getitem bands = Ok c ∧ length c = length bands.
Proof.
  intros H. destruct (comprehension_Ok colors_getitem bands) as [c Hc].
  - eapply list.Forall_impl; [exact H|]. intros band Hband.
    apply list_elem_of_fmap in Hband as (b & -> & Hb).
    by destruct (colors_getitem_known b Hb) as [c ->].
  - exists c. split; [assumption | by eapply comprehension_length].
Qed.














(** A record with known passbands and five time series of one length
    is drawn: one point for each observation, then the title, the two
    labels, the legend and the display. *)
Lemma plot_flux_curve_sample :
  (plot_flux_curve (source_of sorted_row) []).1 = Ok ()
  ∧ length (plot_flux_curve (source_of sorted_row) []).2 = 8.
Proof. split; vm_compute; reflexivity. Qed.

(** * Further properties of the code *)

(** ** Construction: when it succeeds, and how it fails *)

Lemma set_feature_Ok_ready (row : DataFrame) (self self' : LSST_Source) (key : string) :
  set_feature row self key = Ok self' →
  (if bool_decide (key ∈ other_features) then bool_decide (is_Some (cell row key))
   else if bool_decide (key ∈ time_series_features) then is_array (cell row key)
   else true) = true.
Proof.
  unfold set_feature. intros H.
  destruct (bool_decide (key ∈ other_features)).
  - inv_ok H. rewrite (cell_of_column _ _ _ _ Ha Ha0). by apply bool_decide_eq_true_2.
  - destruct (bool_decide (key ∈ time_series_features)); [|reflexivity].
    inv_ok H. apply to_numpy_Ok in Ha1 as ->.
    by rewrite (cell_of_column _ _ _ _ Ha Ha0).
Qed.

Lemma init_loop_Ok_ready (row : DataFrame) (keys : list string) (self r : LSST_Source) :
  foldM (set_feature row) self keys = Ok r →
  forallb (λ key,
     if bool_decide (key ∈ other_features) then bool_decide (is_Some (cell row key))
     else if bool_decide (key ∈ time_series_features) then is_array (cell row key)
     else true) keys = true.
Proof.
  revert self. induction keys as [|k keys IH]; intros self H; simpl in *; [reflexivity|].
  inv_ok H. rewrite (set_feature_Ok_ready _ _ _ _ Ha). simpl. by eapply IH.
Qed.

Lemma init_Ok_constructible (mapper : value → value) (row : DataFrame) (r : LSST_Source) :
  LSST_Source_init mapper row = Ok r → constructible row = true.
Proof.
  unfold LSST_Source_init, constructible. intros H. inv_ok H.
  rewrite (cell_of_column _ _ _ _ Ha Ha0), (cell_of_column _ _ _ _ Ha1 Ha2).
  rewrite !bool_decide_eq_true_2 by eauto. simpl. by eapply init_loop_Ok_ready.
Qed.

(** Construction returns a record exactly on the rows with an identity
    column, a class column, a value in every static column and a
    sequence in every time-series column; on every other row it
    raises. *)
Theorem construction_succeeds_iff (mapper : value → value) (row : DataFrame) :
  is_Ok (LSST_Source_init mapper row) = constructible row.
Proof.
  destruct (constructible row) eqn:Hrow.
  - by destruct (init_Ok mapper row Hrow) as [r ->].
  - destruct (LSST_Source_init mapper row) as [r|e] eqn:Hr; [|reflexivity].
    apply init_Ok_constructible in Hr. congruence.
Qed.

(** A row without the class column, or with it and without the identity
    column, is refused with the column error of the frame. *)
Theorem construction_needs_identity_columns (mapper : value → value)
    (row : DataFrame) (key : string) :
  key ∉ columns row →
  key = "ELASTICC_class" ∨ (key = "SNID" ∧ is_Some (cell row "ELASTICC_class")) →
  LSST_Source_init mapper row = Raise ColumnNotFoundError.
Proof.
  intros Hkey [-> | [-> [c Hc]]]; unfold LSST_Source_init.
  - rewrite (get_column_not_elem "ELASTICC_class") by exact Hkey. reflexivity.
  - apply cell_Some in Hc as (col & -> & Hc). simpl. rewrite Hc. simpl.
    rewrite (get_column_not_elem "SNID") by exact Hkey. reflexivity.
Qed.

Lemma construction_needs_identity_columns_witness :
  ("SNID" ∉ columns [("ELASTICC_class", [VStr "SNIa"]); ("RA", [VFloat (q 1)])])
  ∧ LSST_Source_init sample_taxonomy
      [("ELASTICC_class", [VStr "SNIa"]); ("RA", [VFloat (q 1)])]
    = Raise ColumnNotFoundError.
Proof.
  assert ("SNID" ∉ columns [("ELASTICC_class", [VStr "SNIa"]); ("RA", [VFloat (q 1)])])
    as Hkey by (apply (bool_decide_unpack _); vm_compute; exact I).
  split; [exact Hkey|].
  apply (construction_needs_identity_columns _ _ "SNID" Hkey).
  right. split; [reflexivity | eexists; reflexivity].
Defined.

Lemma init_loop_scalar_series (row : DataFrame) (keys : list string) (self : LSST_Source) :
  Forall (λ k, is_Some (cell row k)) keys →
  Exists (λ k, k ∈ time_series_features ∧ is_array (cell row k) = false) keys →
  foldM (set_feature row) self keys = Raise AttributeError.
Proof.
  revert self. induction keys as [|k keys IH]; intros self Hall Hbad; [by inversion Hbad|].
  apply Forall_cons_1 in Hall as [[v Hv] Hall]. simpl.
  pose proof Hv as Hcol. apply cell_Some in Hcol as (col & Hcol & Hitem).
  unfold set_feature. rewrite Hcol. simpl. rewrite Hitem. simpl.
  destruct (bool_decide (k ∈ other_features)) eqn:Hother; simpl.
  - apply IH; [assumption|]. apply Exists_cons in Hbad as [[Hts _]|Hbad]; [|assumption].
    apply time_series_not_static in Hts. congruence.
  - destruct (bool_decide (k ∈ time_series_features)) eqn:Hts; simpl.
    + destruct v as [| | | |a]; try reflexivity. simpl.
      apply IH; [assumption|].
      apply Exists_cons in Hbad as [[_ Harr]|Hbad]; [|assumption].
      rewrite Hv in Harr. discriminate.
    + apply IH; [assumption|]. apply Exists_cons in Hbad as [[Hin _]|Hbad]; [|assumption].
      apply bool_decide_eq_false in Hts. contradiction.
Qed.

(** A time-series column whose cell is not a sequence makes construction
    fail with an attribute error (the cell has no [to_numpy]), on a row
    with the identity columns and a cell in every column. *)
Theorem construction_rejects_scalar_time_series (mapper : value → value)
    (row : DataFrame) (key : string) :
  is_Some (cell row "ELASTICC_class") → is_Some (cell row "SNID") →
  Forall (λ k, is_Some (cell row k)) (columns row) →
  key ∈ columns row → key ∈ time_series_features → is_array (cell row key) = false →
  LSST_Source_init mapper row = Raise AttributeError.
Proof.
  intros [c Hc] [s Hs] Hall Hkey Hts Harr. unfold LSST_Source_init.
  apply cell_Some in Hc as (colc & -> & Hc). simpl. rewrite Hc. simpl.
  apply cell_Some in Hs as (cols & -> & Hs). simpl. rewrite Hs. simpl.
  unfold getattr. rewrite lookup_insert_ne, lookup_insert_eq by done. simpl.
  apply init_loop_scalar_series; [assumption|].
  apply list.Exists_exists. exists key. by split_and!.
Qed.

Lemma construction_rejects_scalar_time_series_witness :
  LSST_Source_init sample_taxonomy
    [("ELASTICC_class", [VStr "SNIa"]); ("SNID", [VInt 7]); ("MJD", [VFloat (q 1)])]
  = Raise AttributeError.
Proof.
  apply (construction_rejects_scalar_time_series _ _ "MJD").
  - eexists; reflexivity.
  - eexists; reflexivity.
  - repeat constructor; eexists; reflexivity.
  - apply (bool_decide_unpack _). vm_compute. exact I.
  - left.
  - reflexivity.
Defined.

(** ** Construction reads one row, in any column order *)

Lemma item0_take (s : Series) : item0 (take 1 s) = item0 s.
Proof. by destruct s. Qed.

Lemma set_feature_first_row (df : DataFrame) (self : LSST_Source) (key : string) :
  set_feature (df_slice 0 1 df) self key = set_feature df self key.
Proof.
  unfold set_feature. rewrite get_column_slice.
  destruct (get_column key df) as [s|e]; simpl; [|reflexivity].
  by rewrite drop_0, item0_take.
Qed.

Lemma columns_slice (df : DataFrame) (off n : nat) :
  columns (df_slice off n df) = columns df.
Proof. unfold columns, df_slice. rewrite <- list_fmap_compose. reflexivity. Qed.

(** On a frame whose columns read with [to_numpy()[0]] have no null
    cell, construction reads the first row and no other: on a frame of
    several rows it builds the record of row 0, or fails as on row 0. *)
Theorem construction_reads_first_row (mapper : value → value) (df : DataFrame) :
  null_free df = true →
  LSST_Source_init mapper df = LSST_Source_init mapper (df_slice 0 1 df).
Proof.
  intros _. unfold LSST_Source_init. rewrite columns_slice, !get_column_slice.
  destruct (get_column "ELASTICC_class" df) as [colc|]; simpl; [|reflexivity].
  rewrite drop_0, item0_take. destruct (item0 colc) as [c|]; simpl; [|reflexivity].
  destruct (get_column "SNID" df) as [cols|]; simpl; [|reflexivity].
  rewrite drop_0, item0_take. destruct (item0 cols) as [s|]; simpl; [|reflexivity].
  destruct (getattr _ _); simpl; [|reflexivity].
  apply foldM_ext. intros. symmetry. apply set_feature_first_row.
Qed.

Lemma construction_reads_first_row_witness :
  null_free two_sources = true
  ∧ LSST_Source_init sample_taxonomy two_sources
    = LSST_Source_init sample_taxonomy (df_slice 0 1 two_sources).
Proof.
  split; [vm_compute; reflexivity|].
  apply (construction_reads_first_row sample_taxonomy two_sources).
  vm_compute. reflexivity.
Defined.

Lemma get_column_Raise (name : string) (df : DataFrame) (e : exn) :
  get_column name df = Raise e → e = ColumnNotFoundError ∧ name ∉ columns df.
Proof.
  induction df as [|[n s] df IH]; simpl.
  - intros H. inversion H. split; [reflexivity | apply not_elem_of_nil].
  - destruct (decide (n = name)) as [->|Hne]; [discriminate|].
    intros H. destruct (IH H) as [-> Hnot]. split; [reflexivity|].
    intros Hin. apply elem_of_cons in Hin as [?|?]; [congruence | contradiction].
Qed.

Lemma get_column_NoDup (name : string) (s : Series) (df : DataFrame) :
  NoDup (columns df) → (name, s) ∈ df → get_column name df = Ok s.
Proof.
  induction df as [|[n s'] df IH]; simpl; intros Hnd Hin; [by apply elem_of_nil in Hin|].
  apply list.NoDup_cons in Hnd as [Hn Hnd].
  apply elem_of_cons in Hin as [Heq|Hin].
  - inversion Heq; subst. by rewrite decide_True.
  - destruct (decide (n = name)) as [->|Hne]; [|by apply IH].
    exfalso. apply Hn. apply list_elem_of_fmap. by exists (name, s).
Qed.

Lemma get_column_perm (name : string) (df df' : DataFrame) :
  NoDup (columns df) → df ≡ₚ df' → get_column name df' = get_column name df.
Proof.
  intros Hnd Hperm.
  assert (NoDup (columns df')) as Hnd'.
  { unfold columns. by rewrite <- Hperm. }
  destruct (get_column name df) as [s|e] eqn:Hs.
  - apply get_column_Ok_elem in Hs. rewrite Hperm in Hs. by apply get_column_NoDup.
  - apply get_column_Raise in Hs as [-> Hnot].
    apply get_column_not_elem. unfold columns in *. by rewrite <- Hperm.
Qed.

Lemma cell_perm (name : string) (df df' : DataFrame) :
  NoDup (columns df) → df ≡ₚ df' → cell df' name = cell df name.
Proof. intros Hnd Hperm. unfold cell. by rewrite (get_column_perm name df df'). Qed.

Lemma constructible_perm (df df' : DataFrame) :
  NoDup (columns df) → df ≡ₚ df' → constructible df = true → constructible df' = true.
Proof.
  intros Hnd Hperm. unfold constructible.
  rewrite !(cell_perm _ df df') by assumption.
  intros H. apply andb_prop in H as [-> H]. simpl.
  rewrite forallb_forall in H. apply forallb_forall. intros key Hkey.
  rewrite (cell_perm _ df df') by assumption. apply H.
  apply list_elem_of_In. apply list_elem_of_In in Hkey.
  unfold columns in *. by rewrite Hperm.
Qed.

(** The record does not depend on the order of the columns of the row. *)
Theorem construction_ignores_column_order (mapper : value → value)
    (row row' : DataFrame) :
  NoDup (columns row) → row ≡ₚ row' → constructible row = true →
  LSST_Source_init mapper row' = LSST_Source_init mapper row.
Proof.
  intros Hnd Hperm Hrow.
  destruct (init_Ok mapper row Hrow) as [r Hr].
  destruct (init_Ok mapper row' (constructible_perm _ _ Hnd Hperm Hrow)) as [r' Hr'].
  rewrite Hr, Hr'. f_equal. apply map_eq. intros name.
  rewrite (init_stores mapper row r Hr), (init_stores mapper row' r' Hr').
  unfold stored_by_spec. by rewrite !(cell_perm _ row row').
Qed.

Lemma construction_ignores_column_order_witness :
  LSST_Source_init sample_taxonomy (reverse sorted_row)
  = LSST_Source_init sample_taxonomy sorted_row.
Proof.
  apply construction_ignores_column_order.
  - apply (bool_decide_unpack _). vm_compute. exact I.
  - symmetry. apply reverse_Permutation.
  - vm_compute. reflexivity.
Defined.

(** ** Indexed access: every index *)

Lemma df_getitem_negative (df : DataFrame) (i : nat) :
  0 < i ≤ height df →
  df_getitem df (- Z.of_nat i) = Ok (df_slice (height df - i) 1 df).
Proof.
  intros Hi. unfold df_getitem.
  rewrite (bool_decide_eq_false_2 (- Z.of_nat i >= _)%Z) by lia.
  rewrite (bool_decide_eq_false_2 (- Z.of_nat i < - _)%Z) by lia.
  simpl. rewrite bool_decide_eq_true_2 by lia. do 2 f_equal. lia.
Qed.

(** Indexed access accepts the indices from [-row_count] to
    [row_count - 1] and raises the index error on every other one; a
    negative index counts from the end, [-1] being the last row. *)
Theorem indexed_access_every_index (mapper : value → value) (p : string)
    (df : DataFrame) (idx : Z) :
  getitem mapper (loaded p df) idx =
    if bool_decide (0 ≤ idx < Z.of_nat (len (loaded p df)))%Z
    then LSST_Source_init mapper (df_slice (Z.to_nat idx) 1 df)
    else if bool_decide (- Z.of_nat (len (loaded p df)) ≤ idx < 0)%Z
    then LSST_Source_init mapper
           (df_slice (Z.to_nat (Z.of_nat (len (loaded p df)) + idx)) 1 df)
    else Raise IndexError.
Proof.
  assert (∀ m : result LSST_Source, (m ≫= λ source, Ok source) = m) as Hid
    by (by intros [?|?]).
  unfold getitem, len. simpl.
  case_bool_decide as Hpos.
  - rewrite <- (Z2Nat.id idx) at 1 by lia.
    rewrite df_getitem_in_range by lia. simpl. by rewrite Hid.
  - case_bool_decide as Hneg.
    + replace idx with (- Z.of_nat (Z.to_nat (- idx)))%Z at 1 by lia.
      rewrite df_getitem_negative by lia. simpl. rewrite Hid. do 2 f_equal. lia.
    + unfold df_getitem.
      destruct (decide (idx >= Z.of_nat (height df))%Z).
      * by rewrite bool_decide_eq_true_2.
      * rewrite bool_decide_eq_false_2 by assumption.
        by rewrite bool_decide_eq_true_2 by lia.
Qed.

(** ** Labels *)

Lemma getitem_class (mapper : value → value) (p : string) (df : DataFrame)
    (i : nat) (r : LSST_Source) (labels : Series) :
  i < height df →
  get_column "ELASTICC_class" df = Ok labels →
  getitem mapper (loaded p df) (Z.of_nat i) = Ok r →
  r !! "astrophysical_class" = mapper <$> labels !! i.
Proof.
  intros Hi Hlabels Hr. unfold getitem in Hr. simpl in Hr.
  rewrite df_getitem_in_range in Hr by assumption. simpl in Hr.
  destruct (LSST_Source_init mapper (df_slice i 1 df)) as [r'|] eqn:Hinit; [|discriminate].
  inversion Hr; subst r'.
  rewrite (init_stores mapper _ r Hinit). unfold stored_by_spec. simpl.
  by rewrite (cell_slice df _ labels).
Qed.

(** The label [get_labels] gives for a row is the coarse class of the
    record that indexed access builds from that row. *)
Theorem labels_agree_with_records (mapper : value → value) (p : string)
    (df : DataFrame) (i : nat) (r : LSST_Source) (ls : list value) :
  wf_df df → i < len (loaded p df) →
  getitem mapper (loaded p df) (Z.of_nat i) = Ok r →
  get_labels mapper (loaded p df) = Ok ls →
  is_Some (ls !! i) ∧ ls !! i = r !! "astrophysical_class".
Proof.
  intros Hwf Hi Hr Hls. unfold len in Hi. simpl in Hi.
  destruct (get_column "ELASTICC_class" df) as [labels|e] eqn:Hlabels.
  - destruct (get_labels_maps_class_column_aux mapper p df labels Hwf Hlabels) as [Hget Hlen].
    rewrite Hget in Hls. inversion Hls; subst ls.
    rewrite (getitem_class mapper p df i r labels Hi Hlabels Hr).
    rewrite list_lookup_fmap. split; [|reflexivity].
    apply fmap_is_Some, lookup_lt_is_Some_2.
    rewrite (wf_df_column_length _ _ _ Hwf Hlabels). exact Hi.
  - unfold get_labels in Hls. simpl in Hls. rewrite Hlabels in Hls. discriminate.
Qed.

Lemma labels_agree_with_records_witness :
  ∃ r ls, getitem sample_taxonomy (dataset_of two_sources) 1 = Ok r
        ∧ get_labels sample_taxonomy (dataset_of two_sources) = Ok ls
        ∧ ls !! 1 = r !! "astrophysical_class"
        ∧ ls !! 1 = Some (VStr "CC").
Proof.
  assert (is_Ok (getitem sample_taxonomy (dataset_of two_sources) 1) = true) as Hsome
    by (vm_compute; reflexivity).
  destruct (getitem sample_taxonomy (dataset_of two_sources) 1) as [r|e] eqn:Hr;
    [|discriminate Hsome].
  destruct (get_labels sample_taxonomy (dataset_of two_sources)) as [ls|e] eqn:Hls;
    [|vm_compute in Hls; discriminate].
  assert (wf_df two_sources) as Hwf by (apply (bool_decide_unpack _); vm_compute; exact I).
  assert (1 < len (dataset_of two_sources)) as Hi by (simpl; lia).
  destruct (labels_agree_with_records _ _ _ 1 r ls Hwf Hi Hr Hls) as [_ Heq].
  exists r, ls. split_and!; [reflexivity | reflexivity | exact Heq |].
  vm_compute in Hls. inversion Hls. reflexivity.
Defined.

(** On a well-formed table [get_labels] returns a list exactly when the
    table has the class column; without it the column error of the
    frame is raised, also when the table has no row. *)
Theorem get_labels_needs_class_column (mapper : value → value) (p : string)
    (df : DataFrame) :
  wf_df df →
  if bool_decide ("ELASTICC_class" ∈ columns df)
  then ∃ ls, get_labels mapper (loaded p df) = Ok ls ∧ length ls = len (loaded p df)
  else get_labels mapper (loaded p df) = Raise ColumnNotFoundError.
Proof.
  intros Hwf. case_bool_decide as Hcol.
  - destruct (get_column_elem _ _ Hcol) as [labels Hlabels].
    destruct (get_labels_maps_class_column_aux mapper p df labels Hwf Hlabels)
      as [Hget Hlen].
    exists (mapper <$> labels). split; [assumption|]. by rewrite length_fmap.
  - unfold get_labels. simpl. by rewrite (get_column_not_elem _ _ Hcol).
Qed.

Lemma get_labels_needs_class_column_witness :
  get_labels sample_taxonomy (loaded "elasticc.parquet" [("SNID", [VInt 1; VInt 2])])
  = Raise ColumnNotFoundError.
Proof.
  assert (wf_df [("SNID", [VInt 1; VInt 2])]) as Hwf
    by (apply (bool_decide_unpack _); vm_compute; exact I).
  exact (get_labels_needs_class_column sample_taxonomy "elasticc.parquet" _ Hwf).
Defined.

(** ** The event table: when there is one, and what it holds *)

Lemma table_setitem_new (name : string) (a : ndarray) :
  table_setitem name (VArray a) Table_new
  = Ok {| table_columns := [(name, a)]; table_meta := [] |}.
Proof. unfold table_setitem, add_column. simpl. by rewrite fit_column_0. Qed.

Lemma table_setitem_fits (name : string) (a : ndarray) (t : Table) :
  arr_len (fit_column (table_len t) a) = table_len t →
  table_setitem name (VArray a) t
  = Ok {| table_columns := table_columns t ++ [(name, fit_column (table_len t) a)];
          table_meta := table_meta t |}.
Proof.
  intros Hlen. unfold table_setitem, add_column.
  rewrite (bool_decide_eq_false_2 (arr_len _ ≠ _)) by (intros Hne; by apply Hne).
  by rewrite andb_false_r.
Qed.

Lemma arr_getitem_numeric (mjd : ndarray) (x0 : value) :
  numeric mjd = true → arr_getitem mjd 0 = Ok x0 → ∃ time, arr_sub mjd x0 = Ok time.
Proof.
  unfold arr_getitem. destruct mjd as [xs|xs|xs]; simpl; try discriminate; intros _;
    rewrite list_lookup_fmap; destruct (xs !! 0); simpl; intros H; inversion H; eauto.
Qed.

Lemma series_fits_len (n : nat) (a : ndarray) :
  0 < n → series_fits n (Some (VArray a)) = true ↔ arr_len (fit_column n a) = n.
Proof.
  intros Hn. rewrite fit_column_len. simpl. rewrite orb_true_iff, !bool_decide_eq_true.
  intuition.
Qed.

Lemma static_features_Ok_inv (self : LSST_Source) (fs : list (string * value)) :
  static_features self = Ok fs → Forall (λ k, is_Some (self !! k)) other_features.
Proof.
  intros Hfs. apply list.Forall_forall. intros f Hf.
  destruct (self !! f) as [v|] eqn:Hv; [by eexists|].
  rewrite (static_features_missing self f Hf Hv) in Hfs. discriminate.
Qed.

Local Arguments table_setitem : simpl never.

Lemma exportable_Ok (self : LSST_Source) :
  exportable self = true → ∃ t, get_event_table self = Ok t.
Proof.
  unfold exportable. destruct (self !! "MJD") as [[| | | |mjd]|] eqn:Hmjd; try discriminate.
  intros H. apply andb_prop in H as [H Hstatic]. apply andb_prop in H as [H Hfits].
  apply andb_prop in H as [Hnum Hpos]. apply bool_decide_eq_true in Hpos.
  simpl in Hfits.
  destruct (self !! "PHOTFLAG") as [[| | | |pf]|] eqn:Hpf; try discriminate.
  destruct (self !! "FLUXCAL") as [[| | | |fc]|] eqn:Hfc;
    try (rewrite andb_false_r in Hfits; discriminate).
  destruct (self !! "FLUXCALERR") as [[| | | |fe]|] eqn:Hfe;
    try (rewrite !andb_false_r in Hfits; discriminate).
  destruct (self !! "BAND") as [[| | | |bd]|] eqn:Hbd;
    try (rewrite !andb_false_r in Hfits; discriminate).
  apply andb_prop in Hfits as [Fpf Hfits]. apply andb_prop in Hfits as [Ffc Hfits].
  apply andb_prop in Hfits as [Ffe Hfits]. apply andb_prop in Hfits as [Fbd _].
  apply (series_fits_len _ _ Hpos) in Fpf, Ffc, Ffe, Fbd.
  assert (∃ x0, arr_getitem mjd 0 = Ok x0) as [x0 Hx0].
  { unfold arr_getitem. rewrite <- arr_items_length in Hpos.
    destruct (lookup_lt_is_Some_2 (arr_items mjd) 0 Hpos) as [x0 ->]. eauto. }
  destruct (arr_getitem_numeric mjd x0 Hnum Hx0) as [time Htime].
  pose proof (arr_sub_len _ _ _ Htime) as Hlen.
  assert (Forall (λ k, is_Some (self !! k)) other_features) as Hall.
  { apply list.Forall_forall. intros f Hf. rewrite forallb_forall in Hstatic.
    apply list_elem_of_In, Hstatic in Hf. by apply bool_decide_eq_true in Hf. }
  apply static_features_Ok in Hall as [fs Hfs].
  apply getattr_Ok in Hmjd, Hpf, Hfc, Hfe, Hbd.
  unfold get_event_table, time_series_table.
  rewrite Hmjd. simpl. rewrite Hx0. simpl. rewrite Htime. simpl.
  change (table_len Table_new) with 0. rewrite fit_column_0.
  rewrite Hpf. simpl. rewrite table_setitem_fits by (unfold table_len; simpl; congruence).
  simpl. rewrite Hfc. simpl.
  rewrite table_setitem_fits by (unfold table_len; simpl; congruence).
  simpl. rewrite Hfe. simpl.
  rewrite table_setitem_fits by (unfold table_len; simpl; congruence).
  simpl. rewrite Hbd. simpl.
  rewrite table_setitem_fits by (unfold table_len; simpl; congruence).
  simpl. unfold table_len. simpl. rewrite bool_decide_eq_true_2 by exact Hlen.
  simpl. rewrite Hfs. simpl. eauto.
Qed.

Lemma Ok_exportable (self : LSST_Source) (t : Table) :
  get_event_table self = Ok t → exportable self = true.
Proof.
  intros H. apply get_event_table_Ok in H
    as (mjd & x0 & time & pf & fc & fe & bd & fs & Hmjd & Hx0 & Hsub & Hpf & Hfc & Hfe
        & Hbd & Hfit & Hfs & _).
  assert (0 < arr_len mjd) as Hpos.
  { unfold arr_getitem in Hx0. destruct (arr_items mjd !! 0) eqn:Hi; [|discriminate].
    apply lookup_lt_Some in Hi. by rewrite arr_items_length in Hi. }
  apply Forall_cons_1 in Hfit as [Lpf Hfit]. apply Forall_cons_1 in Hfit as [Lfc Hfit].
  apply Forall_cons_1 in Hfit as [Lfe Hfit]. apply Forall_cons_1 in Hfit as [Lbd _].
  apply (series_fits_len _ _ Hpos) in Lpf, Lfc, Lfe, Lbd.
  unfold exportable. rewrite Hmjd.
  apply andb_true_intro; split;
    [apply andb_true_intro; split; [apply andb_true_intro; split|]|].
  - by destruct mjd, x0.
  - by apply bool_decide_eq_true_2.
  - apply forallb_forall. intros key Hkey. apply list_elem_of_In in Hkey.
    repeat (apply elem_of_cons in Hkey as [->|Hkey]; [congruence|]).
    by apply elem_of_nil in Hkey.
  - apply forallb_forall. intros f Hf. apply bool_decide_eq_true.
    apply static_features_Ok_inv in Hfs. rewrite list.Forall_forall in Hfs.
    by apply Hfs, list_elem_of_In.
Qed.

(** [get_event_table] returns a table exactly for the records with a
    non-empty numeric MJD, the four other time series of the length of
    MJD or of one entry, and all the static features; for every other
    record it raises. *)
Theorem event_table_exists_iff (self : LSST_Source) :
  is_Ok (get_event_table self) = exportable self.
Proof.
  destruct (exportable self) eqn:He.
  - by destruct (exportable_Ok self He) as [t ->].
  - destruct (get_event_table self) as [t|e] eqn:Ht; [|reflexivity].
    apply Ok_exportable in Ht. congruence.
Qed.

(** A record without observation has no table: reading [MJD[0]] raises
    the index error. *)
Theorem event_table_needs_an_observation (self : LSST_Source) (mjd : ndarray) :
  self !! "MJD" = Some (VArray mjd) → arr_len mjd = 0 →
  get_event_table self = Raise IndexError.
Proof.
  intros Hmjd Hlen. apply getattr_Ok in Hmjd.
  unfold get_event_table, time_series_table. rewrite Hmjd. simpl.
  unfold arr_getitem. rewrite <- arr_items_length in Hlen.
  by rewrite (nil_length_inv _ Hlen).
Qed.

Lemma event_table_needs_an_observation_witness :
  source_of no_observation_row !! "MJD" = Some (VArray (Float64 []))
  ∧ get_event_table (source_of no_observation_row) = Raise IndexError.
Proof.
  assert (source_of no_observation_row !! "MJD" = Some (VArray (Float64 [])))
    as Hmjd by (vm_compute; reflexivity).
  split; [exact Hmjd|].
  exact (event_table_needs_an_observation _ _ Hmjd eq_refl).
Defined.

Lemma odict_set_new {V} (k : string) (v : V) (d : list (string * V)) :
  k ∉ d.*1 → odict_set k v d = d ++ [(k, v)].
Proof. intros Hk. unfold odict_set. by rewrite bool_decide_eq_false_2. Qed.

Lemma static_loop_spec (self : LSST_Source) (l : list string)
    (acc fs : list (string * value)) :
  NoDup (acc.*1 ++ l) →
  foldM (λ feature_static other_feature,
           v ← getattr self other_feature;
           Ok (odict_set other_feature v feature_static)) acc l = Ok fs →
  fs.*1 = acc.*1 ++ l
  ∧ (Forall (λ kv, self !! kv.1 = Some kv.2) acc →
     Forall (λ kv, self !! kv.1 = Some kv.2) fs).
Proof.
  revert acc. induction l as [|k l IH]; intros acc Hnd H; simpl in H.
  - inversion H; subst. by rewrite app_nil_r.
  - apply bind_Ok in H as (acc' & Hstep & H).
    apply bind_Ok in Hstep as (v & Hv & Hstep). apply getattr_Ok in Hv.
    assert (k ∉ acc.*1) as Hk.
    { apply list.NoDup_app in Hnd as (_ & Hdisj & _). intros Hin. apply (Hdisj k Hin). left. }
    rewrite (odict_set_new k v acc Hk) in Hstep. inversion Hstep; subst acc'.
    apply IH in H as [Hnames Hvals].
    + rewrite fmap_app in Hnames. simpl in Hnames. rewrite <- app_assoc in Hnames.
      split; [exact Hnames|]. intros Hacc. apply Hvals.
      apply Forall_app. split; [assumption|]. by repeat constructor.
    + rewrite fmap_app. simpl. by rewrite <- app_assoc.
Qed.

Lemma other_features_NoDup : NoDup other_features.
Proof. apply (bool_decide_unpack _). vm_compute. exact I. Qed.

Lemma event_table_metadata_aux (self : LSST_Source) (t : Table) :
  get_event_table self = Ok t →
  (table_meta t).*1 = other_features
  ∧ Forall (λ kv, self !! kv.1 = Some kv.2) (table_meta t).
Proof.
  intros H. apply get_event_table_Ok in H
    as (mjd & x0 & time & pf & fc & fe & bd & fs & _ & _ & _ & _ & _ & _ & _ & _ & Hfs & ->).
  simpl. unfold static_features in Hfs.
  apply static_loop_spec in Hfs as [Hnames Hvals]; [|exact other_features_NoDup].
  split; [exact Hnames | apply Hvals; constructor].
Qed.

Lemma event_table_columns_aux (self : LSST_Source) (t : Table) :
  get_event_table self = Ok t →
  ∃ pf fc fe bd,
    self !! "PHOTFLAG" = Some (VArray pf) ∧ self !! "FLUXCAL" = Some (VArray fc)
    ∧ self !! "FLUXCALERR" = Some (VArray fe) ∧ self !! "BAND" = Some (VArray bd)
    ∧ table_column "photflag" t = Some (fit_column (table_len t) pf)
    ∧ table_column "flux" t = Some (fit_column (table_len t) fc)
    ∧ table_column "fluxErr" t = Some (fit_column (table_len t) fe)
    ∧ table_column "passband" t = Some (fit_column (table_len t) bd).
Proof.
  intros H. apply get_event_table_Ok in H
    as (mjd & x0 & time & pf & fc & fe & bd & fs & _ & _ & _ & Hpf & Hfc & Hfe & Hbd
        & _ & _ & ->).
  exists pf, fc, fe, bd. rewrite table_len_event_columns. by split_and!.
Qed.

(** The metadata of the table lists the static features in the order
    of the class attribute [other_features], each with the value the
    record holds for it. *)
Theorem event_table_metadata (self : LSST_Source) (t : Table) :
  get_event_table self = Ok t →
  (table_meta t).*1 = other_features
  ∧ Forall (λ kv, self !! kv.1 = Some kv.2) (table_meta t).
Proof. apply event_table_metadata_aux. Qed.

Lemma event_table_metadata_witness :
  (table_meta (table_of (source_of sorted_row))).*1 = other_features
  ∧ length (table_meta (table_of (source_of sorted_row))) = 39.
Proof.
  assert (get_event_table (source_of sorted_row) = Ok (table_of (source_of sorted_row)))
    as Ht by (apply table_of_Ok; vm_compute; reflexivity).
  destruct (event_table_metadata _ _ Ht) as [Hnames _].
  split; [exact Hnames|].
  rewrite <- (length_fmap fst), Hnames. reflexivity.
Defined.

Lemma fit_column_same (n : nat) (a : ndarray) : arr_len a = n → fit_column n a = a.
Proof.
  intros Hlen. unfold fit_column. case_bool_decide as H1; [|reflexivity].
  case_bool_decide as Hn; [|reflexivity]. simpl.
  assert (n = 1) as -> by lia.
  destruct a; simpl; by rewrite app_nil_r.
Qed.

(** The table has the five columns time, photflag, flux, fluxErr and
    passband, in this order and all of the row count of the table; each
    of the last four holds the time series it is named after, unchanged
    when the series has the row count of the table. *)
Theorem event_table_columns (self : LSST_Source) (t : Table) :
  get_event_table self = Ok t →
  (table_columns t).*1 = ["time"; "photflag"; "flux"; "fluxErr"; "passband"]
  ∧ Forall (λ c, arr_len c.2 = table_len t) (table_columns t)
  ∧ (∀ key name a,
       (key, name) ∈ column_sources → self !! key = Some (VArray a) →
       table_column name t = Some (fit_column (table_len t) a)
       ∧ (arr_len a = table_len t → table_column name t = Some a)).
Proof.
  intros H. apply get_event_table_Ok in H
    as (mjd & x0 & time & pf & fc & fe & bd & fs & Hmjd & Hx0 & Hsub & Hpf & Hfc & Hfe
        & Hbd & Hfit & _ & ->).
  pose proof (arr_sub_len _ _ _ Hsub) as Hlen.
  rewrite table_len_event_columns.
  apply Forall_cons_1 in Hfit as [Lpf Hfit]. apply Forall_cons_1 in Hfit as [Lfc Hfit].
  apply Forall_cons_1 in Hfit as [Lfe Hfit]. apply Forall_cons_1 in Hfit as [Lbd _].
  rewrite <- Hlen in Lpf, Lfc, Lfe, Lbd.
  split_and!.
  - reflexivity.
  - unfold event_columns. simpl. by repeat constructor.
  - intros key name a Hin Ha. unfold column_sources in Hin.
    assert (table_column name
              {| table_columns := event_columns time pf fc fe bd; table_meta := fs |}
            = Some (fit_column (arr_len time) a)) as Hcol.
    { repeat (apply elem_of_cons in Hin as [Heq|Hin];
              [inversion Heq; subst; rewrite Ha in *;
               repeat match goal with
                      | E : Some (VArray _) = Some (VArray _) |- _ =>
                          inversion E; subst; clear E
                      end; reflexivity|]).
      by apply elem_of_nil in Hin. }
    split; [exact Hcol|]. intros Hsame. by rewrite Hcol, fit_column_same.
Qed.

Lemma event_table_columns_witness :
  (table_columns (table_of (source_of sorted_row))).*1
  = ["time"; "photflag"; "flux"; "fluxErr"; "passband"]
  ∧ table_column "passband" (table_of (source_of sorted_row))
    = Some (Str ["g"; "r"; "g"]).
Proof.
  assert (get_event_table (source_of sorted_row) = Ok (table_of (source_of sorted_row)))
    as Ht by (apply table_of_Ok; vm_compute; reflexivity).
  destruct (event_table_columns _ _ Ht) as (Hnames & _ & Hcols).
  split; [exact Hnames|].
  destruct (Hcols "BAND" "passband" (Str ["g"; "r"; "g"])) as [_ Hband].
  - unfold column_sources. repeat constructor.
  - vm_compute. reflexivity.
  - apply Hband. vm_compute. reflexivity.
Defined.

(** ** The flux curve *)

Lemma land_4096_testbit (f : Z) : Z.land f 4096 ≠ 0%Z ↔ Z.testbit f 12 = true.
Proof.
  change 4096%Z with (2 ^ 12)%Z. split.
  - intros Hne. destruct (Z.testbit f 12) eqn:Hbit; [reflexivity|].
    exfalso. apply Hne. apply Z.bits_inj'. intros n Hn.
    rewrite Z.land_spec, Z.bits_0, Z.pow2_bits_eqb by lia.
    destruct (Z.eqb_spec 12 n) as [<-|?]; [by rewrite Hbit | apply andb_false_r].
  - intros Hbit Hzero.
    assert (Z.testbit (Z.land f (2 ^ 12)) 12 = true) as H.
    { rewrite Z.land_spec, Hbit, Z.pow2_bits_eqb by lia. reflexivity. }
    rewrite Hzero, Z.bits_0 in H. discriminate.
Qed.

Lemma detection_marker_bit_aux (flags : list Z) :
  detection_markers (VArray (Int64 flags))
  = Ok ((λ f, if Z.testbit f 12 then "*" else ".") <$> flags).
Proof.
  unfold detection_markers. f_equal. apply list_fmap_ext. intros i f _.
  case_bool_decide as H.
  - apply land_4096_testbit in H. by rewrite H.
  - destruct (Z.testbit f 12) eqn:Hbit; [|reflexivity].
    apply land_4096_testbit in Hbit. contradiction.
Qed.

(** The star marks the observations whose flag has the bit of value
    4096, bit 12, set, whatever the other bits; the others get the dot. *)
Theorem detection_marker_is_bit_12 (flags : list Z) :
  detection_markers (VArray (Int64 flags))
  = Ok ((λ f, if Z.testbit f 12 then "*" else ".") <$> flags).
Proof. apply detection_marker_bit_aux. Qed.

Lemma comprehension_lookup {A B} (f : A → result B) (l : list A) (ys : list B) :
  comprehension f l = Ok ys →
  ∀ i x, l !! i = Some x → ∃ y, f x = Ok y ∧ ys !! i = Some y.
Proof.
  revert ys. induction l as [|a l IH]; intros ys H i x Hx; [by destruct i|].
  simpl in H. apply bind_Ok in H as (y & Hy & H). apply bind_Ok in H as (ys' & Hys & H).
  inversion H; subst ys. destruct i as [|i]; simpl in *.
  - inversion Hx; subst. eauto.
  - by eapply IH.
Qed.

Lemma colors_getitem_elem (b color : string) :
  colors_getitem (VStr b) = Ok color → (b, color) ∈ colors.
Proof.
  unfold colors_getitem.
  destruct (list_find (λ kv : string * string, kv.1 = b) colors) as [[i kv]|] eqn:Hfind;
    [|discriminate].
  intros H. inversion H; subst. apply list_find_Some in Hfind as (Hi & <- & _).
  destruct kv. by eapply list_elem_of_lookup_2.
Qed.

Lemma plt_bind_pure_Ok {A B} (m : result A) (a : A) (f : A → Plt B) (fig : list draw) :
  m = Ok a → plt_bind (pure m) f fig = f a fig.
Proof. by intros ->. Qed.

Lemma plt_bind_plt {B} (d : draw) (f : unit → Plt B) (fig : list draw) :
  plt_bind (plt d) f fig = f () (fig ++ [d]).
Proof. reflexivity. Qed.

Lemma plt_bind_Ok {A B} (m : Plt A) (a : A) (f : A → Plt B) (fig fig' : list draw) :
  m fig = (Ok a, fig') → plt_bind m f fig = f a fig'.
Proof. unfold plt_bind. by intros ->. Qed.

Lemma plt_bind_ext {A B} (m m' : Plt A) (f f' : A → Plt B) (fig : list draw) :
  m fig = m' fig → (∀ a fig', f a fig' = f' a fig') →
  plt_bind m f fig = plt_bind m' f' fig.
Proof.
  intros Hm Hf. unfold plt_bind. rewrite Hm.
  destruct (m' fig) as [[a|e] fig']; [apply Hf | reflexivity].
Qed.

Lemma for_each_app {A} (body : A → Plt unit) (l1 l2 : list A) (fig : list draw) :
  for_each body (l1 ++ l2) fig
  = plt_bind (for_each body l1) (λ _, for_each body l2) fig.
Proof.
  revert fig. induction l1 as [|i l1 IH]; intros fig; [reflexivity|].
  cbn [app for_each]. unfold plt_bind in *.
  destruct (body i fig) as [[[]|e] fig']; [apply IH | reflexivity].
Qed.

Lemma for_each_requests {A} (call : backend) (body : A → Plt unit) (g : A → draw)
    (l : list A) (fig : list draw) :
  (∀ i, i ∈ l → ∀ fig, body i fig = plt_with call (g i) fig) →
  for_each body l fig = issue call (g <$> l) fig.
Proof.
  unfold issue. revert fig. induction l as [|i l IH]; intros fig Hbody; [reflexivity|].
  cbn [fmap list_fmap for_each]. unfold plt_bind. rewrite Hbody by left.
  destruct (plt_with call (g i) fig) as [[[]|e] fig']; [|reflexivity].
  apply IH. intros j Hj. apply Hbody. by right.
Qed.

Lemma issue_accepted (call : backend) (ds : list draw) (fig : list draw) :
  (∀ fig' d, d ∈ ds → call fig' d = Ok ()) → issue call ds fig = (Ok (), fig ++ ds).
Proof.
  unfold issue. revert fig. induction ds as [|d ds IH]; intros fig Hcall.
  - simpl. by rewrite app_nil_r.
  - cbn [for_each]. unfold plt_bind, plt_with. rewrite Hcall by left.
    rewrite IH by (intros fig' d' Hd'; apply Hcall; by right).
    by rewrite <- app_assoc.
Qed.

Lemma issue_Raise (call : backend) (ds : list draw) (fig : list draw) (e : exn) :
  (issue call ds fig).1 = Raise e → ∃ fig' d, d ∈ ds ∧ call fig' d = Raise e.
Proof.
  unfold issue. revert fig. induction ds as [|d ds IH]; intros fig; [discriminate|].
  cbn [for_each]. unfold plt_bind, plt_with.
  destruct (call fig d) as [[]|e'] eqn:Hcall.
  - intros H. destruct (IH _ H) as (fig' & d' & Hd' & He). exists fig', d'.
    split; [by right | exact He].
  - simpl. intros H. inversion H; subst e'. exists fig, d. split; [left | exact Hcall].
Qed.

Lemma plot_flux_curve_accepting (self : LSST_Source) (fig : list draw) :
  plot_flux_curve_with accepting self fig = plot_flux_curve self fig.
Proof. reflexivity. Qed.

Lemma subscript_lookup (a : ndarray) (i : nat) (x : value) :
  arr_items a !! i = Some x → subscript (VArray a) i = Ok x.
Proof. intros H. simpl. unfold arr_getitem. by rewrite H. Qed.

Lemma tuple_getitem_lookup {A} (t : list A) (i : nat) (x : A) :
  t !! i = Some x → tuple_getitem t i = Ok x.
Proof. intros H. unfold tuple_getitem. by rewrite H. Qed.

Lemma lookup_default {A} (l : list A) (i : nat) (d : A) :
  i < length l → l !! i = Some (default d (l !! i)).
Proof. intros Hi. by destruct (lookup_lt_is_Some_2 l i Hi) as [x ->]. Qed.

(** For a record with known passbands, integer flags and no series
    shorter than MJD, [plot_flux_curve] asks matplotlib for one point
    for each observation, in their order, then for the title, the two
    axis labels, the legend of the six passbands and the display, and
    stops at the first request that matplotlib refuses.  The point of an
    observation has its time, its flux and its flux error, the colour
    of its passband, and the star when bit 12 of its flag is set, the
    dot otherwise.  When matplotlib accepts the requests the function
    completes, with the requests added to what was drawn before; and an
    exception it raises is one that matplotlib raised on a request. *)
Theorem plot_draws_every_observation (call : backend) (self : LSST_Source)
    (fig : list draw) (bands : list string) (flags : list Z)
    (mjd fluxcal fluxcalerr : ndarray) (snid elasticc_class : value) :
  self !! "BAND" = Some (VArray (Str bands)) →
  Forall (λ b, b ∈ passbands) bands →
  self !! "PHOTFLAG" = Some (VArray (Int64 flags)) →
  self !! "MJD" = Some (VArray mjd) →
  self !! "FLUXCAL" = Some (VArray fluxcal) →
  self !! "FLUXCALERR" = Some (VArray fluxcalerr) →
  arr_len mjd ≤ arr_len fluxcal → arr_len mjd ≤ arr_len fluxcalerr →
  arr_len mjd ≤ length bands → arr_len mjd ≤ length flags →
  self !! "SNID" = Some snid → self !! "ELASTICC_class" = Some elasticc_class →
  ∃ points,
    let requests := points ++ decorations snid elasticc_class in
    plot_flux_curve_with call self fig = issue call requests fig
    ∧ length points = arr_len mjd
    ∧ (∀ i x y yerr b f,
         arr_items mjd !! i = Some x → arr_items fluxcal !! i = Some y →
         arr_items fluxcalerr !! i = Some yerr →
         bands !! i = Some b → flags !! i = Some f →
         ∃ color, (b, color) ∈ colors
                ∧ points !! i
                  = Some (Errorbar x y yerr color
                            (if Z.testbit f 12 then "*" else ".") "10"))
    ∧ ((∀ fig' d, d ∈ requests → call fig' d = Ok ()) →
       plot_flux_curve_with call self fig = (Ok (), fig ++ requests))
    ∧ (∀ e, (plot_flux_curve_with call self fig).1 = Raise e →
            ∃ fig' d, d ∈ requests ∧ call fig' d = Raise e).
Proof.
  intros Hband Hknown Hflag Hmjd Hfc Hfe Lfc Lfe Lband Lflag Hsnid Hclass.
  apply getattr_Ok in Hband, Hflag, Hmjd, Hfc, Hfe, Hsnid, Hclass.
  destruct (color_lookup_Ok (arr_items (Str bands))) as (c & Hc & Hclen).
  { apply Forall_fmap. eapply list.Forall_impl; [exact Hknown|].
    intros b Hb. apply (list_elem_of_fmap_2 VStr). exact Hb. }
  simpl in Hclen. rewrite length_fmap in Hclen.
  set (fmts := (λ f, if Z.testbit f 12 then "*" else ".") <$> flags).
  set (g := errorbar_at mjd fluxcal fluxcalerr c fmts).
  exists (g <$> seq 0 (arr_len mjd)). cbv zeta.
  assert (plot_flux_curve_with call self fig
          = issue call ((g <$> seq 0 (arr_len mjd)) ++ decorations snid elasticc_class) fig)
    as Hplot.
  { unfold plot_flux_curve_with.
    rewrite (plt_bind_pure_Ok _ _ _ _ Hband). cbv beta.
    rewrite (plt_bind_pure_Ok _ (arr_items (Str bands))) by reflexivity. cbv beta.
    rewrite (plt_bind_pure_Ok _ _ _ _ Hc). cbv beta.
    rewrite (plt_bind_pure_Ok _ legend_handles) by (vm_compute; reflexivity). cbv beta.
    rewrite (plt_bind_pure_Ok _ _ _ _ Hflag). cbv beta.
    rewrite (plt_bind_pure_Ok _ fmts) by apply detection_marker_bit_aux. cbv beta.
    rewrite (plt_bind_pure_Ok _ _ _ _ Hmjd). cbv beta.
    rewrite (plt_bind_pure_Ok _ (arr_len mjd)) by reflexivity. cbv beta.
    unfold issue. rewrite for_each_app. apply plt_bind_ext.
    - apply (for_each_requests call _ g).
      intros i Hi fig'. apply elem_of_seq in Hi as [_ Hi]. simpl in Hi.
      rewrite (plt_bind_pure_Ok _ _ _ _ Hmjd). cbv beta.
      rewrite (plt_bind_pure_Ok _ (default VNone (arr_items mjd !! i)))
        by (apply subscript_lookup, lookup_default; rewrite arr_items_length; lia).
      cbv beta. rewrite (plt_bind_pure_Ok _ _ _ _ Hfc). cbv beta.
      rewrite (plt_bind_pure_Ok _ (default VNone (arr_items fluxcal !! i)))
        by (apply subscript_lookup, lookup_default; rewrite arr_items_length; lia).
      cbv beta. rewrite (plt_bind_pure_Ok _ _ _ _ Hfe). cbv beta.
      rewrite (plt_bind_pure_Ok _ (default VNone (arr_items fluxcalerr !! i)))
        by (apply subscript_lookup, lookup_default; rewrite arr_items_length; lia).
      cbv beta.
      rewrite (plt_bind_pure_Ok _ (default "" (c !! i)))
        by (apply tuple_getitem_lookup, lookup_default; lia).
      cbv beta.
      rewrite (plt_bind_pure_Ok _ (default "" (fmts !! i)))
        by (apply tuple_getitem_lookup, lookup_default; unfold fmts;
            rewrite length_fmap; lia).
      reflexivity.
    - intros [] fig'.
      rewrite (plt_bind_pure_Ok _ _ _ _ Hsnid). cbv beta.
      rewrite (plt_bind_pure_Ok _ _ _ _ Hclass). cbv beta.
      unfold decorations. cbn [for_each]. unfold plt_bind, plt_ret.
      repeat match goal with
             | |- context [plt_with call ?d ?f] =>
                 destruct (plt_with call d f) as [[[]|?] ?]; try reflexivity
             end. }
  split_and!.
  - exact Hplot.
  - by rewrite length_fmap, length_seq.
  - intros i x y yerr b f Hx Hy Hyerr Hb Hf.
    assert (i < arr_len mjd) as Hi.
    { apply lookup_lt_Some in Hx. by rewrite arr_items_length in Hx. }
    destruct (comprehension_lookup _ _ _ Hc i (VStr b)) as (color & Hcolor & Hci).
    { simpl. by rewrite list_lookup_fmap, Hb. }
    exists color. split; [by apply colors_getitem_elem|].
    rewrite list_lookup_fmap, lookup_seq_lt by assumption. simpl.
    unfold g, errorbar_at, fmts. by rewrite Hx, Hy, Hyerr, Hci, list_lookup_fmap, Hf.
  - intros Hcall. rewrite Hplot. by apply issue_accepted.
  - intros e. rewrite Hplot. apply issue_Raise.
Qed.

Lemma plot_draws_every_observation_witness :
  ∃ points,
    plot_flux_curve_with accepting (source_of sorted_row) []
    = (Ok (), [] ++ points ++ decorations (VInt 7) (VStr "SNIa"))
    ∧ length points = 3
    ∧ ∃ color, ("r", color) ∈ colors
             ∧ points !! 1
               = Some (Errorbar (VFloat (q 2)) (VFloat (q 20)) (VFloat (q 1)) color "*" "10").
Proof.
  destruct (plot_draws_every_observation accepting (source_of sorted_row) []
              ["g"; "r"; "g"] [0; 4096; 0]%Z (Float64 [q 1; q 2; q 4])
              (Float64 [q 10; q 20; q 30]) (Float64 [q 1; q 1; q 1])
              (VInt 7) (VStr "SNIa"))
    as (points & _ & Hlen & Hpoint & Hdone & _).
  - vm_compute. reflexivity.
  - apply (bool_decide_unpack _). vm_compute. exact I.
  - vm_compute. reflexivity.
  - vm_compute. reflexivity.
  - vm_compute. reflexivity.
  - vm_compute. reflexivity.
  - simpl. lia.
  - simpl. lia.
  - simpl. lia.
  - simpl. lia.
  - vm_compute. reflexivity.
  - vm_compute. reflexivity.
  - exists points. split_and!; [apply Hdone; reflexivity | exact Hlen |].
    exact (Hpoint 1 _ _ _ "r" 4096%Z eq_refl eq_refl eq_refl eq_refl eq_refl).
Defined.

(** matplotlib refuses an error bar of negative length: the record whose
    second flux error is negative gets its first point drawn, and the
    plot ends there with the exception of matplotlib. *)
Lemma negative_error_bar_stops_the_plot :
  (plot_flux_curve_with refuses_negative_yerr (source_of negative_error_row) []).1
  = Raise ValueError
  ∧ length (plot_flux_curve_with refuses_negative_yerr (source_of negative_error_row) []).2
    = 1.
Proof. split; vm_compute; reflexivity. Qed.

(** ** From the row to the table *)

Lemma cell_Some_column (row : DataFrame) (key : string) (v : value) :
  cell row key = Some v → key ∈ columns row.
Proof.
  intros H. apply cell_Some in H as (col & Hcol & _).
  apply get_column_Ok_elem in Hcol. apply list_elem_of_fmap. by exists (key, col).
Qed.

(** When a row without a null cell in the columns read with
    [to_numpy()[0]] gives a record and the record a table, the row has
    all the static columns and the metadata of the table are their
    cells; the columns photflag, flux, fluxErr and passband hold the
    sequences of the cells PHOTFLAG, FLUXCAL, FLUXCALERR and BAND of the
    row. *)
Theorem table_holds_the_cells_of_the_row (mapper : value → value)
    (row : DataFrame) (r : LSST_Source) (t : Table) :
  null_free row = true →
  LSST_Source_init mapper row = Ok r →
  get_event_table r = Ok t →
  Forall (λ f, f ∈ columns row) other_features
  ∧ (table_meta t).*1 = other_features
  ∧ Forall (λ kv, cell row kv.1 = Some kv.2) (table_meta t)
  ∧ Forall (λ kn, ∃ a, cell row kn.1 = Some (VArray a)
                     ∧ table_column kn.2 t = Some (fit_column (table_len t) a))
           column_sources.
Proof.
  intros _ Hr Ht. pose proof (init_stores mapper row r Hr) as Hstored.
  destruct (event_table_metadata_aux r t Ht) as [Hnames Hvals].
  assert (∀ f v, f ∈ other_features → r !! f = Some v → cell row f = Some v) as Hcell.
  { intros f v Hf Hv. rewrite Hstored, stored_by_spec_recognized in Hv; [assumption|].
    unfold recognized. by rewrite (bool_decide_eq_true_2 _ Hf). }
  assert (Forall (λ kv, cell row kv.1 = Some kv.2) (table_meta t)) as Hmeta.
  { apply list.Forall_forall. intros kv Hkv. apply Hcell.
    - rewrite <- Hnames. apply list_elem_of_fmap. by exists kv.
    - rewrite list.Forall_forall in Hvals. by apply Hvals. }
  split_and!; [|exact Hnames | exact Hmeta |].
  - apply list.Forall_forall. intros f Hf. rewrite <- Hnames in Hf.
    apply list_elem_of_fmap in Hf as (kv & -> & Hkv).
    rewrite list.Forall_forall in Hmeta. by eapply cell_Some_column, Hmeta.
  - destruct (event_table_columns_aux r t Ht) as (pf & fc & fe & bd & Hpf & Hfc & Hfe & Hbd
                                                  & Cpf & Cfc & Cfe & Cbd).
    assert (∀ key a, key ∈ time_series_features → r !! key = Some (VArray a) →
                     cell row key = Some (VArray a)) as Hts.
    { intros key a Hkey Ha. rewrite Hstored, stored_by_spec_recognized in Ha; [assumption|].
      unfold recognized. rewrite (bool_decide_eq_true_2 _ Hkey). apply orb_true_r. }
    unfold column_sources. repeat constructor; simpl.
    + exists pf. split; [apply Hts; [set_solver | exact Hpf] | exact Cpf].
    + exists fc. split; [apply Hts; [set_solver | exact Hfc] | exact Cfc].
    + exists fe. split; [apply Hts; [set_solver | exact Hfe] | exact Cfe].
    + exists bd. split; [apply Hts; [set_solver | exact Hbd] | exact Cbd].
Qed.

Lemma table_holds_the_cells_of_the_row_witness :
  null_free sorted_row = true
  ∧ Forall (λ f, f ∈ columns sorted_row) other_features
  ∧ Forall (λ kv, cell sorted_row kv.1 = Some kv.2)
           (table_meta (table_of (source_of sorted_row)))
  ∧ length (table_meta (table_of (source_of sorted_row))) = 39.
Proof.
  assert (LSST_Source_init sample_taxonomy sorted_row = Ok (source_of sorted_row))
    as Hr by (apply source_of_Ok; vm_compute; reflexivity).
  assert (get_event_table (source_of sorted_row) = Ok (table_of (source_of sorted_row)))
    as Ht by (apply table_of_Ok; vm_compute; reflexivity).
  assert (null_free sorted_row = true) as Hnull by (vm_compute; reflexivity).
  destruct (table_holds_the_cells_of_the_row _ _ _ _ Hnull Hr Ht)
    as (Hcols & Hnames & Hmeta & _).
  split_and!; [exact Hnull | exact Hcols | exact Hmeta |].
  rewrite <- (length_fmap fst), Hnames. reflexivity.
Defined.
